(** * discord-scatter-plot: a shallow embedding of [discord-scatter-plot.py]

    The script reads a Discord data export, converts every message
    timestamp to the time zone stored in the user's profile and plots
    calendar date against time of day.  This development embeds the
    script's functions, together with the parts of the Python runtime
    they rest on (binary64 arithmetic, the proleptic Gregorian calendar of
    [datetime], [pytz.FixedOffset], dictionary and list access on decoded
    JSON), and proves properties of them. *)

From Stdlib Require Import ZArith List String Ascii Bool Lia DecimalString.
From Stdlib Require Import Floats.SpecFloat.
Import ListNotations.

Local Open Scope string_scope.
Local Open Scope Z_scope.

(** ** Python exceptions and fallible computations *)

Inductive exception : Type :=
| KeyError (key : string)
| TypeError
| ValueError
| OverflowError
| OSError
| JSONDecodeError
| UnicodeDecodeError.

Inductive result (A : Type) : Type :=
| Ok (a : A)
| Raise (e : exception).

Arguments Ok {A} a.
Arguments Raise {A} e.

Definition rbind {A B : Type} (r : result A) (k : A -> result B) : result B :=
  match r with
  | Ok a => k a
  | Raise e => Raise e
  end.

Declare Scope result_scope.
Delimit Scope result_scope with result.
Notation "'let?' x ':=' r 'in' k" := (rbind r (fun x => k))
  (at level 10, x pattern, r at level 100, k at level 200) : result_scope.
Local Open Scope result_scope.

(** ** Decimal rendering of integers, as [str(int)] and the [d] format do *)

Definition str_nat (z : Z) : string :=
  NilZero.string_of_uint (N.to_uint (Z.to_N z)).

Definition str_int (z : Z) : string :=
  if z <? 0 then "-" ++ str_nat (- z) else str_nat z.

(** [format(z, "02d")]: sign-aware zero padding to a total width of two. *)
Definition format_02d (z : Z) : string :=
  if z <? 0 then "-" ++ str_nat (- z)
  else if z <? 10 then "0" ++ str_nat z
  else str_nat z.

(** ** IEEE 754 binary64, the representation of Python's [float] *)

Module Float.

Definition prec : Z := 53.
Definition emax : Z := 1024.

Definition float : Type := spec_float.

(** An integer read as the (unrounded) pair mantissa/exponent 0. *)
Definition of_int_exact (z : Z) : float :=
  match z with
  | Z0 => S754_zero false
  | Zpos p => S754_finite false p 0
  | Zneg p => S754_finite true p 0
  end.

(** [a / b] on Python integers: the quotient rounded once, to nearest
    even.  A zero divisor and a quotient beyond the binary64 range raise
    in Python; the script divides by the constants 60 and 200 only, and
    its dividends are bounded. *)
Definition int_true_div (a b : Z) : float :=
  SFdiv prec emax (of_int_exact a) (of_int_exact b).

(** [float(z)] *)
Definition of_int (z : Z) : float := binary_normalize prec emax z 0 false.

Definition mul : float -> float -> float := SFmul prec emax.
Definition sub : float -> float -> float := SFsub prec emax.
Definition abs : float -> float := SFabs.

(** Rounding toward zero to an integral float, keeping the sign of a zero
    result ([trunc], and [numpy.fix] on a scalar). *)
Definition trunc (x : float) : float :=
  match x with
  | S754_finite s m (Zneg k) =>
      match Z.shiftr (Zpos m) (Zpos k) with
      | Zpos q => binary_round prec emax s q 0
      | _ => S754_zero s
      end
  | _ => x
  end.

Definition numpy_fix : float -> float := trunc.

(** [math.modf]: fractional and integral parts, both carrying the sign of
    the argument. *)
Definition math_modf (x : float) : float * float :=
  match x with
  | S754_finite s _ _ =>
      let ip := trunc x in
      let fp := match sub x ip with
                | S754_zero _ => S754_zero s
                | d => d
                end in
      (fp, ip)
  | S754_infinity s => (S754_zero s, x)
  | _ => (x, x)
  end.

(** [int(x)] on a float. *)
Definition to_int (x : float) : result Z :=
  match x with
  | S754_zero _ => Ok 0
  | S754_finite s m e =>
      let a := match e with
               | Zneg k => Z.shiftr (Zpos m) (Zpos k)
               | _ => Z.shiftl (Zpos m) e
               end in
      Ok (if s then - a else a)
  | S754_infinity _ => Raise OverflowError
  | S754_nan => Raise ValueError
  end.

(** The magnitude rounded to the nearest integer, ties to even: the
    digits printed by the format [.0f]. *)
Definition round_half_even_abs (m : positive) (e : Z) : Z :=
  match e with
  | Zneg k =>
      let q := Z.shiftr (Zpos m) (Zpos k) in
      let r := Zpos m - Z.shiftl q (Zpos k) in
      let half := Z.shiftl 1 (Zpos k - 1) in
      match r ?= half with
      | Lt => q
      | Eq => if Z.even q then q else q + 1
      | Gt => q + 1
      end
  | _ => Z.shiftl (Zpos m) e
  end.

(** [format(x, "+.0f")] *)
Definition format_plus_0f (x : float) : string :=
  let sign (s : bool) := if s then "-" else "+" in
  match x with
  | S754_zero s => sign s ++ "0"
  | S754_finite s m e => sign s ++ str_nat (round_half_even_abs m e)
  | S754_infinity s => sign s ++ "inf"
  | S754_nan => "+nan"
  end.

End Float.

(** ** [utc_string_from_minutes] *)

Definition utc_string_from_minutes (minutes : Z) : result string :=
  let '(minutes_frac, hours) := Float.math_modf (Float.int_true_div minutes 60) in
  let? minutes_frac :=
    Float.to_int (Float.abs (Float.numpy_fix (Float.mul minutes_frac (Float.of_int 60)))) in
  if minutes_frac =? 0 then
    Ok ("UTC" ++ Float.format_plus_0f hours)
  else
    Ok ("UTC" ++ Float.format_plus_0f hours ++ ":" ++ format_02d minutes_frac).

(** ** The calendar of Python's [datetime] module

    The definitions follow the reference implementation of the standard
    library ([_is_leap], [_days_before_year], [_days_in_month],
    [_days_before_month], [_ymd2ord], [_ord2ymd], the field checks of the
    constructor, and the arithmetic of [datetime.__add__] and
    [datetime.__sub__]). *)

Module Calendar.

Definition MINYEAR : Z := 1.
Definition MAXYEAR : Z := 9999.
Definition MAXORDINAL : Z := 3652059.

Definition DAYS_IN_MONTH : list Z :=
  [-1; 31; 28; 31; 30; 31; 30; 31; 31; 30; 31; 30; 31].

Definition DAYS_BEFORE_MONTH : list Z :=
  [-1; 0; 31; 59; 90; 120; 151; 181; 212; 243; 273; 304; 334].

(** Indexing one of the two tables. *)
Definition table (l : list Z) (i : Z) : Z := nth (Z.to_nat i) l 0.

Definition is_leap (year : Z) : bool :=
  (year mod 4 =? 0) && (negb (year mod 100 =? 0) || (year mod 400 =? 0)).

Definition days_before_year (year : Z) : Z :=
  let y := year - 1 in
  y * 365 + y / 4 - y / 100 + y / 400.

Definition days_in_month (year month : Z) : Z :=
  if (month =? 2) && is_leap year then 29 else table DAYS_IN_MONTH month.

Definition days_before_month (year month : Z) : Z :=
  table DAYS_BEFORE_MONTH month
  + (if (2 <? month) && is_leap year then 1 else 0).

Definition ymd2ord (year month day : Z) : Z :=
  days_before_year year + days_before_month year month + day.

Definition DI400Y : Z := Eval cbv in days_before_year 401.
Definition DI100Y : Z := Eval cbv in days_before_year 101.
Definition DI4Y : Z := Eval cbv in days_before_year 5.

Definition ord2ymd (n : Z) : Z * Z * Z :=
  let n := n - 1 in
  let n400 := n / DI400Y in
  let n := n mod DI400Y in
  let year := n400 * 400 + 1 in
  let n100 := n / DI100Y in
  let n := n mod DI100Y in
  let n4 := n / DI4Y in
  let n := n mod DI4Y in
  let n1 := n / 365 in
  let n := n mod 365 in
  let year := year + (n100 * 100 + n4 * 4 + n1) in
  if (n1 =? 4) || (n100 =? 4) then (year - 1, 12, 31)
  else
    let leapyear := (n1 =? 3) && (negb (n4 =? 24) || (n100 =? 3)) in
    let month := Z.shiftr (n + 50) 5 in
    let preceding :=
      table DAYS_BEFORE_MONTH month
      + (if (2 <? month) && leapyear then 1 else 0) in
    let '(month, preceding) :=
      if n <? preceding then
        (month - 1,
         preceding - (table DAYS_IN_MONTH (month - 1)
                      + (if (month - 1 =? 2) && leapyear then 1 else 0)))
      else (month, preceding) in
    (year, month, n - preceding + 1).

(** A [timedelta], held as its total number of microseconds; the three
    normalised fields are recovered by floor division. *)
Definition timedelta : Type := Z.

Definition US_PER_SECOND : Z := 1000000.
Definition US_PER_DAY : Z := 86400 * US_PER_SECOND.

Definition td (days seconds microseconds : Z) : timedelta :=
  days * US_PER_DAY + seconds * US_PER_SECOND + microseconds.
Definition td_days (t : timedelta) : Z := t / US_PER_DAY.
Definition td_seconds (t : timedelta) : Z := (t mod US_PER_DAY) / US_PER_SECOND.
Definition td_microseconds (t : timedelta) : Z := t mod US_PER_SECOND.
Definition td_minutes (minutes : Z) : timedelta := td 0 (minutes * 60) 0.

(** A [datetime] object.  A time zone is represented by its fixed UTC
    offset; [None] is a naive datetime. *)
Record datetime : Type := mk_datetime {
  year : Z;
  month : Z;
  day : Z;
  hour : Z;
  minute : Z;
  second : Z;
  microsecond : Z;
  tzinfo : option timedelta
}.

Definition check_date_fields (y m d : Z) : bool :=
  (MINYEAR <=? y) && (y <=? MAXYEAR)
  && (1 <=? m) && (m <=? 12)
  && (1 <=? d) && (d <=? days_in_month y m).

Definition check_time_fields (h mi s us : Z) : bool :=
  (0 <=? h) && (h <=? 23) && (0 <=? mi) && (mi <=? 59)
  && (0 <=? s) && (s <=? 59) && (0 <=? us) && (us <=? 999999).

(** The invariant of every [datetime] object. *)
Definition valid_datetime (d : datetime) : bool :=
  check_date_fields (year d) (month d) (day d)
  && check_time_fields (hour d) (minute d) (second d) (microsecond d).

(** The constructor [datetime(year, month, day, hour, minute, second)];
    the arguments left out default to zero and to no time zone. *)
Definition datetime_new (y m d h mi s : Z) : result datetime :=
  if check_date_fields y m d && check_time_fields h mi s 0
  then Ok (mk_datetime y m d h mi s 0 None)
  else Raise ValueError.

Definition toordinal (d : datetime) : Z := ymd2ord (year d) (month d) (day d).

(** The wall clock reading of [d] as a [timedelta] since day 0. *)
Definition wall_clock (d : datetime) : timedelta :=
  td (toordinal d) (hour d * 3600 + minute d * 60 + second d) (microsecond d).

(** [d + t] *)
Definition datetime_add (d : datetime) (t : timedelta) : result datetime :=
  let delta := wall_clock d + t in
  let h := td_seconds delta / 3600 in
  let rem := td_seconds delta mod 3600 in
  let mi := rem / 60 in
  let s := rem mod 60 in
  if (0 <? td_days delta) && (td_days delta <=? MAXORDINAL) then
    let '(y, m, dd) := ord2ymd (td_days delta) in
    Ok (mk_datetime y m dd h mi s (td_microseconds delta) (tzinfo d))
  else Raise OverflowError.

(** [d.replace(tzinfo=tz)] *)
Definition replace_tzinfo (d : datetime) (tz : option timedelta) : datetime :=
  mk_datetime (year d) (month d) (day d) (hour d) (minute d) (second d)
              (microsecond d) tz.

(** The range check applied to every value a time zone returns from
    [utcoffset]. *)
Definition check_utc_offset (off : timedelta) : result timedelta :=
  if (- td 1 0 0 <? off) && (off <? td 1 0 0) then Ok off else Raise ValueError.

(** [d1 - d2] for two datetimes. *)
Definition datetime_sub (d1 d2 : datetime) : result timedelta :=
  let base :=
    td (toordinal d1 - toordinal d2)
       ((second d1 + minute d1 * 60 + hour d1 * 3600)
        - (second d2 + minute d2 * 60 + hour d2 * 3600))
       (microsecond d1 - microsecond d2) in
  match tzinfo d1, tzinfo d2 with
  | None, None => Ok base
  | Some o1, Some o2 => Ok (base + o2 - o1)
  | _, _ => Raise TypeError
  end.

(** The order on naive datetimes: lexicographic on the seven fields. *)
Definition fields (d : datetime) : list Z :=
  [year d; month d; day d; hour d; minute d; second d; microsecond d].

Fixpoint lex_compare (a b : list Z) : comparison :=
  match a, b with
  | x :: a', y :: b' =>
      match x ?= y with
      | Eq => lex_compare a' b'
      | c => c
      end
  | [], [] => Eq
  | [], _ :: _ => Lt
  | _ :: _, [] => Gt
  end.

Definition datetime_lt (a b : datetime) : bool :=
  match lex_compare (fields a) (fields b) with Lt => true | _ => false end.

End Calendar.

Import Calendar.

(** ** Time zones *)

(** [pytz.FixedOffset(offset)]: a zone [offset] minutes east of UTC
    ([pytz.UTC] itself for a zero offset). *)
Definition pytz_FixedOffset (offset : Z) : result timedelta :=
  if offset =? 0 then Ok (td_minutes 0)
  else if 1440 <=? Z.abs offset then Raise ValueError
  else Ok (td_minutes offset).

(** [tzinfo.fromutc], which [pytz]'s fixed zones inherit; their [dst] is
    the zero [timedelta]. *)
Definition tz_fromutc (tz : timedelta) (dt : datetime) : result datetime :=
  let? dtoff := check_utc_offset tz in
  let dtdst := 0 in
  let delta := dtoff - dtdst in
  let? dt := if delta =? 0 then Ok dt else datetime_add dt delta in
  datetime_add dt dtdst.

(** [self.astimezone(tz)].  For a naive [self] the offset is the one of the
    system's local zone, [local_utcoffset]. *)
Definition astimezone (local_utcoffset : datetime -> result timedelta)
    (self : datetime) (tz : timedelta) : result datetime :=
  let? myoffset :=
    match tzinfo self with
    | None => local_utcoffset self
    | Some off => check_utc_offset off
    end in
  let? utc := datetime_add self (- myoffset) in
  tz_fromutc tz (replace_tzinfo utc (Some tz)).

(** The absolute instant an aware datetime denotes: its wall clock reading
    less its UTC offset, in microseconds. *)
Definition instant (d : datetime) : option Z :=
  match tzinfo d with
  | Some off => Some (wall_clock d - off)
  | None => None
  end.

(** ** Decoded JSON values and the Python operations the script applies

    A value as [json.load] returns it.  The members of an object are the
    items of the Python dictionary, in order, with distinct keys.  Numbers
    written with a fraction or an exponent (Python floats) are not
    represented: the one number the script reads is the integer offset of
    the profile. *)

#[local] Unset Elimination Schemes.
Inductive json : Type :=
| JNull
| JBool (b : bool)
| JInt (z : Z)
| JString (s : string)
| JArray (items : list json)
| JObject (members : list (string * json)).
#[local] Set Elimination Schemes.

Fixpoint assoc (key : string) (members : list (string * json)) : option json :=
  match members with
  | [] => None
  | (k, v) :: rest => if String.eqb k key then Some v else assoc key rest
  end.

(** [v[key]] for a string key. *)
Definition getitem (v : json) (key : string) : result json :=
  match v with
  | JObject members =>
      match assoc key members with
      | Some x => Ok x
      | None => Raise (KeyError key)
      end
  | _ => Raise TypeError
  end.

Fixpoint characters (s : string) : list json :=
  match s with
  | EmptyString => []
  | String c rest => JString (String c EmptyString) :: characters rest
  end.

(** The elements a [for] loop draws from [v]: the items of a list, the
    keys of a dictionary, the characters of a string. *)
Definition py_iter (v : json) : result (list json) :=
  match v with
  | JArray items => Ok items
  | JObject members => Ok (map (fun kv => JString (fst kv)) members)
  | JString s => Ok (characters s)
  | _ => Raise TypeError
  end.

(** Unary minus. *)
Definition py_neg (v : json) : result Z :=
  match v with
  | JInt z => Ok (- z)
  | JBool b => Ok (- (if b then 1 else 0))
  | _ => Raise TypeError
  end.

(** ** Paths ([posixpath.join]) *)

Definition starts_with_sep (b : string) : bool :=
  match b with
  | String c _ => Ascii.eqb c "/"
  | EmptyString => false
  end.

Fixpoint ends_with_sep (a : string) : bool :=
  match a with
  | EmptyString => false
  | String c EmptyString => Ascii.eqb c "/"
  | String _ rest => ends_with_sep rest
  end.

Definition os_path_join (a b : string) : string :=
  if starts_with_sep b then b
  else if String.eqb a "" || ends_with_sep a then a ++ b
  else a ++ "/" ++ b.

(** ** The environment of a run

    What the script obtains from the operating system and from the
    libraries whose results depend on data outside the program. *)

Record environment : Type := {
  (** [os.path.abspath] *)
  abspath : string -> string;
  (** [os.path.exists] *)
  path_exists : string -> bool;
  (** [open(path, encoding="utf8")] followed by [json.load] *)
  open_json : string -> result json;
  (** [glob.glob(pattern, recursive=True)] *)
  glob : string -> list string;
  (** [dateutil.parser.parse] on a string *)
  dateutil_parse : string -> result datetime;
  (** the UTC offset of the system's local zone at a naive datetime *)
  local_utcoffset : datetime -> result timedelta;
  (** [repr] of a list or a dictionary *)
  container_repr : json -> string
}.

(** ** Observable behaviour: console lines, written images, termination *)

Inductive image_format : Type :=
| PNG (dpi : Z)
| SVG.

(** The figure handed to [savefig].  Tick locators, formatters and grid
    styling are fixed presentation settings and are not represented. *)
Record figure : Type := {
  figsize : Float.float * Z;
  scatter_x : list datetime;
  scatter_y : list datetime;
  xlim : datetime * datetime;
  title : string
}.

Record world : Type := {
  console : list string;
  files : list (string * image_format * figure)
}.

Definition initial_world : world := {| console := []; files := [] |}.

Inductive outcome : Type :=
| Completed
| SysExit (code : Z)
| Uncaught (e : exception).

(** The exit status of the process. *)
Definition exit_status (o : outcome) : Z :=
  match o with
  | Completed => 0
  | SysExit code => code
  | Uncaught _ => 1
  end.

Inductive step (A : Type) : Type :=
| Next (a : A)
| Stop (o : outcome).

Arguments Next {A} a.
Arguments Stop {A} o.

Definition prog (A : Type) : Type := world -> world * step A.

Definition ret {A : Type} (a : A) : prog A := fun w => (w, Next a).

Definition bind {A B : Type} (c : prog A) (k : A -> prog B) : prog B :=
  fun w =>
    match c w with
    | (w', Next a) => k a w'
    | (w', Stop o) => (w', Stop o)
    end.

Declare Scope prog_scope.
Delimit Scope prog_scope with prog.
Notation "x <- c ;; k" := (bind c (fun x => k))
  (at level 61, c at next level, right associativity) : prog_scope.
Notation "' p <- c ;; k" := (bind c (fun x => match x with p => k end))
  (at level 61, p pattern, c at next level, right associativity) : prog_scope.
Notation "c ;; k" := (bind c (fun _ => k))
  (at level 61, right associativity) : prog_scope.

Definition print (line : string) : prog unit :=
  fun w => ({| console := console w ++ [line]; files := files w |}, Next tt).

Definition savefig (path : string) (fmt : image_format) (fig : figure) : prog unit :=
  fun w => ({| console := console w; files := files w ++ [(path, fmt, fig)] |}, Next tt).

Definition sys_exit {A : Type} (code : Z) : prog A :=
  fun w => (w, Stop (SysExit code)).

(** A pure computation run inside the program; an exception nobody
    catches ends the run. *)
Definition lift {A : Type} (r : result A) : prog A :=
  fun w =>
    match r with
    | Ok a => (w, Next a)
    | Raise e => (w, Stop (Uncaught e))
    end.

Definition run (c : prog unit) : world * outcome :=
  match c initial_world with
  | (w, Next _) => (w, Completed)
  | (w, Stop o) => (w, o)
  end.

(** ** The script *)

(** Line 49: [pytz.FixedOffset(-tz_offset)] *)
Definition user_timezone_of (tz_offset : json) : result timedelta :=
  let? minutes := py_neg tz_offset in
  pytz_FixedOffset minutes.

(** Line 50: [utc_string_from_minutes(-tz_offset)] *)
Definition user_timezone_name_of (tz_offset : json) : result string :=
  let? minutes := py_neg tz_offset in
  utc_string_from_minutes minutes.

(** Lines 33-34 and 53: the paths derived from the archive root. *)
Definition user_json_path (archive_dir : string) : string :=
  os_path_join (os_path_join archive_dir "account") "user.json".

Definition messages_path (archive_dir : string) : string :=
  os_path_join archive_dir "messages".

Definition messages_pattern (archive_dir : string) : string :=
  os_path_join (os_path_join (messages_path archive_dir) "**") "messages.json".

Section Script.

Variable env : environment.

(** What an f-string prints for a decoded JSON value. *)
Definition py_str (v : json) : string :=
  match v with
  | JString s => s
  | JNull => "None"
  | JBool b => if b then "True" else "False"
  | JInt z => str_int z
  | _ => container_repr env v
  end.

(** [dateutil.parser.parse(v)]: only a string is accepted. *)
Definition parser_parse (v : json) : result datetime :=
  match v with
  | JString s => dateutil_parse env s
  | _ => Raise TypeError
  end.

(** Line 60: [dateutil.parser.parse(msg["Timestamp"]).astimezone(user_timezone)] *)
Definition normalize (user_timezone : timedelta) (msg : json) : result datetime :=
  let? timestamp := getitem msg "Timestamp" in
  let? parsed := parser_parse timestamp in
  astimezone (local_utcoffset env) parsed user_timezone.

(** Lines 59-61, the loop over the records of one file. *)
Fixpoint parse_records (user_timezone : timedelta) (message_list : list json)
    (message_dates : list datetime) : result (list datetime) :=
  match message_list with
  | [] => Ok message_dates
  | msg :: rest =>
      let? msg_date := normalize user_timezone msg in
      parse_records user_timezone rest (message_dates ++ [msg_date])%list
  end.

(** Lines 56-61, the loop over the message files. *)
Fixpoint parse_files (user_timezone : timedelta) (message_files : list string)
    (message_dates : list datetime) : result (list datetime) :=
  match message_files with
  | [] => Ok message_dates
  | mf :: rest =>
      let? message_list := open_json env mf in
      let? records := py_iter message_list in
      let? message_dates := parse_records user_timezone records message_dates in
      parse_files user_timezone rest message_dates
  end.

(** Lines 69-70: the Date Bucket and the Time Bucket of one timestamp. *)
Definition bucket (date : datetime) : result (datetime * datetime) :=
  let? only_date := datetime_new (year date) (month date) (day date) 0 0 0 in
  let? only_time := datetime_new 1970 1 1 (hour date) (minute date) (second date) in
  Ok (only_date, only_time).

(** Lines 66-72, the loop filling [dates] and [times]. *)
Fixpoint bucketize (message_dates dates times : list datetime)
    : result (list datetime * list datetime) :=
  match message_dates with
  | [] => Ok (dates, times)
  | date :: rest =>
      let? (only_date, only_time) := bucket date in
      bucketize rest (dates ++ [only_date])%list (times ++ [only_time])%list
  end.

(** The builtins [max] and [min] on a list of naive datetimes. *)
Definition py_max (l : list datetime) : result datetime :=
  match l with
  | [] => Raise ValueError
  | x :: rest =>
      Ok (fold_left (fun best item => if datetime_lt best item then item else best) rest x)
  end.

Definition py_min (l : list datetime) : result datetime :=
  match l with
  | [] => Raise ValueError
  | x :: rest =>
      Ok (fold_left (fun best item => if datetime_lt item best then item else best) rest x)
  end.

(** Line 83: [((max(dates) - min(dates)).days / 200, 3)] *)
Definition compute_figsize (dates : list datetime) : result (Float.float * Z) :=
  let? hi := py_max dates in
  let? lo := py_min dates in
  let? span := datetime_sub hi lo in
  Ok (Float.int_true_div (td_days span) 200, 3).

Definition invalid_archive_message (archive_dir : string) : string :=
  archive_dir ++ " is not a valid discord data archive".

(** Line 48: the chain of subscripts reaching the stored offset. *)
Definition timezone_offset_field (user_info : json) : result json :=
  let? a := getitem user_info "settings" in
  let? b := getitem a "settings" in
  let? c := getitem b "localization" in
  getitem c "timezoneOffset".

Local Open Scope prog_scope.

Definition main (input : string) : prog unit :=
  let archive_dir := abspath env input in
  (if negb (path_exists env (user_json_path archive_dir))
      || negb (path_exists env (messages_path archive_dir))
   then print (invalid_archive_message archive_dir) ;; sys_exit 1
   else ret tt) ;;
  user_info <- lift (open_json env (user_json_path archive_dir)) ;;
  user_name <- lift (getitem user_info "global_name") ;;
  print ("discord user: " ++ py_str user_name) ;;
  tz_offset <- lift (timezone_offset_field user_info) ;;
  user_timezone <- lift (user_timezone_of tz_offset) ;;
  user_timezone_name <- lift (user_timezone_name_of tz_offset) ;;
  print "finding messages…" ;;
  let message_files := glob env (messages_pattern archive_dir) in
  print "parsing messages…" ;;
  message_dates <- lift (parse_files user_timezone message_files []) ;;
  print ("total messages: " ++ str_int (Z.of_nat (List.length message_dates))) ;;
  print "processing dates…" ;;
  ' (dates, times) <- lift (bucketize message_dates [] []) ;;
  print "creating graph…" ;;
  size <- lift (compute_figsize dates) ;;
  lo <- lift (py_min dates) ;;
  hi <- lift (py_max dates) ;;
  let fig := {| figsize := size;
                scatter_x := dates;
                scatter_y := times;
                xlim := (lo, hi);
                title := "When does " ++ py_str user_name
                         ++ " post on Discord? (" ++ user_timezone_name ++ ")" |} in
  print "rendering png…" ;;
  savefig (os_path_join archive_dir "out.png") (PNG 300) fig ;;
  print "rendering svg…" ;;
  savefig (os_path_join archive_dir "out.svg") SVG fig ;;
  print "done!".

End Script.

(** * Notions used in the statements *)

(** ** Zone labels *)

(** The label of an offset of [n] minutes east of UTC, written with exact
    integer arithmetic: sign, whole hours, and the remaining minutes
    whenever there are any. *)
Definition exact_label (n : Z) : string :=
  let h := Z.abs n / 60 in
  let mi := Z.abs n mod 60 in
  "UTC" ++ (if n <? 0 then "-" else "+") ++ str_nat h
        ++ (if mi =? 0 then "" else ":" ++ format_02d mi).

Definition is_digit (c : ascii) : bool :=
  let n := nat_of_ascii c in (48 <=? n)%nat && (n <=? 57)%nat.

Fixpoint all_digits (s : string) : bool :=
  match s with
  | EmptyString => true
  | String c rest => is_digit c && all_digits rest
  end.

Definition digits (s : string) : bool :=
  negb (String.eqb s "") && all_digits s.

(** The shape [UTC±H] or [UTC±H:MM], with [MM] two digits other than 00. *)
Definition label_shape (s : string) : bool :=
  match s with
  | String "U" (String "T" (String "C" (String sign rest))) =>
      (Ascii.eqb sign "+" || Ascii.eqb sign "-")
      && match index 0 ":" rest with
         | None => digits rest
         | Some i =>
             let hours := substring 0 i rest in
             let minutes := substring (S i) (String.length rest - S i) rest in
             digits hours && digits minutes
             && Nat.eqb (String.length minutes) 2
             && negb (String.eqb minutes "00")
         end
  | _ => false
  end.

(** What is checked of [utc_string_from_minutes n], offset by offset. *)
Definition label_check (n : Z) : bool :=
  match utc_string_from_minutes n with
  | Ok s => label_shape s && implb (n mod 15 =? 0) (String.eqb s (exact_label n))
  | Raise _ => false
  end.

(** ** Ranges of integers *)

(** A boolean predicate checked on [lo], [lo + 1], ..., [len] values. *)
Fixpoint range_forallb (f : Z -> bool) (lo : Z) (len : nat) : bool :=
  match len with
  | O => true
  | S k => f lo && range_forallb f (lo + 1) k
  end.

(** ** Calendar *)

(** The month and day that [ord2ymd] derives from the zero-based day of
    the year [n]. *)
Definition month_day (leapyear : bool) (n : Z) : Z * Z :=
  let month := Z.shiftr (n + 50) 5 in
  let preceding :=
    table DAYS_BEFORE_MONTH month
    + (if (2 <? month) && leapyear then 1 else 0) in
  let '(month, preceding) :=
    if n <? preceding then
      (month - 1,
       preceding - (table DAYS_IN_MONTH (month - 1)
                    + (if (month - 1 =? 2) && leapyear then 1 else 0)))
    else (month, preceding) in
  (month, n - preceding + 1).

Definition month_day_ok (leapyear : bool) (n : Z) : bool :=
  let '(m, d) := month_day leapyear n in
  (1 <=? m) && (m <=? 12) && (1 <=? d)
  && (d <=? (if (m =? 2) && leapyear then 29 else table DAYS_IN_MONTH m))
  && (table DAYS_BEFORE_MONTH m + (if (2 <? m) && leapyear then 1 else 0) + d
      =? n + 1).

(** The month tables are increasing and end with the length of the year. *)
Definition month_tables_ok (leap : bool) (m1 : Z) : bool :=
  let dim m := if (m =? 2) && leap then 29 else table DAYS_IN_MONTH m in
  let dbm m := table DAYS_BEFORE_MONTH m + (if (2 <? m) && leap then 1 else 0) in
  (0 <=? dbm m1)
  && (dbm m1 + dim m1 <=? 365 + (if leap then 1 else 0))
  && range_forallb (fun m2 => implb (m1 <? m2) (dbm m1 + dim m1 <=? dbm m2)) 1 12.

Definition valid_date (y m d : Z) : Prop :=
  1 <= m <= 12 /\ 1 <= d <= days_in_month y m.

(** ** Buckets *)

(** The two buckets of a timestamp, written out. *)
Definition date_bucket (d : datetime) : datetime :=
  mk_datetime (year d) (month d) (day d) 0 0 0 0 None.

Definition time_bucket (d : datetime) : datetime :=
  mk_datetime 1970 1 1 (hour d) (minute d) (second d) 0 None.

(** A Date Bucket: a valid calendar date at midnight, without time zone. *)
Definition is_date_bucket (d : datetime) : Prop :=
  valid_datetime d = true /\ d = date_bucket d.

(** The wall clock reading of a timestamp, truncated to the second. *)
Definition to_the_second (d : datetime) : Z * Z * Z * Z * Z * Z :=
  (year d, month d, day d, hour d, minute d, second d).

(** Date from the Date Bucket, time of day from the Time Bucket. *)
Definition recombine (only_date only_time : datetime) : Z * Z * Z * Z * Z * Z :=
  (year only_date, month only_date, day only_date,
   hour only_time, minute only_time, second only_time).

(** ** Runs *)

Definition archive_present (env : environment) (input : string) : bool :=
  path_exists env (user_json_path (abspath env input))
  && path_exists env (messages_path (abspath env input)).

(** The profile was read: display name, time zone and label are known. *)
Definition profile_loaded (env : environment) (input : string)
    (user_name : json) (tz : timedelta) (label : string) : Prop :=
  exists user_info tz_offset,
    open_json env (user_json_path (abspath env input)) = Ok user_info
    /\ getitem user_info "global_name" = Ok user_name
    /\ timezone_offset_field user_info = Ok tz_offset
    /\ user_timezone_of tz_offset = Ok tz
    /\ user_timezone_name_of tz_offset = Ok label.

Definition message_files (env : environment) (input : string) : list string :=
  glob env (messages_pattern (abspath env input)).

Definition written_paths (w : world) : list string :=
  map (fun f => fst (fst f)) (files w).

Definition output_paths (env : environment) (input : string) : list string :=
  [os_path_join (abspath env input) "out.png";
   os_path_join (abspath env input) "out.svg"].

(** A record whose timestamp cannot be read or parsed. *)
Definition unparsable (env : environment) (msg : json) : Prop :=
  exists e, rbind (getitem msg "Timestamp") (parser_parse env) = Raise e.

(** A message file that cannot be decoded into records, or holds an
    unparsable record. *)
Definition malformed (env : environment) (mf : string) : Prop :=
  (exists e, rbind (open_json env mf) py_iter = Raise e)
  \/ (exists j rs, open_json env mf = Ok j /\ py_iter j = Ok rs
                   /\ Exists (unparsable env) rs).

(** A timestamp as the parsing loops append it: valid, in the user's
    zone. *)
Definition normalized (tz : timedelta) (d : datetime) : Prop :=
  valid_datetime d = true /\ tzinfo d = Some tz.

(** The value reached from [v] along [path] is an object lacking the
    field [key]. *)
Inductive lacks_field : json -> list string -> string -> Prop :=
| lacks_here members key rest :
    assoc key members = None ->
    lacks_field (JObject members) (key :: rest) key
| lacks_below members k v rest key :
    assoc k members = Some v ->
    lacks_field v rest key ->
    lacks_field (JObject members) (k :: rest) key.

Definition offset_path : list string :=
  ["settings"; "settings"; "localization"; "timezoneOffset"].

(** ** Sample archives *)

Fixpoint lookup {A : Type} (key : string) (l : list (string * A)) : option A :=
  match l with
  | [] => None
  | (k, v) :: rest => if String.eqb k key then Some v else lookup key rest
  end.

Definition sample_localization (tz_offset : json) : json :=
  JObject [("settings",
            JObject [("locale", JString "en-GB");
                     ("localization", JObject [("timezoneOffset", tz_offset)])])].

Definition sample_profile (tz_offset : json) : json :=
  JObject [("id", JString "1001");
           ("global_name", JString "sam");
           ("settings", sample_localization tz_offset)].

Definition sample_timestamps : list (string * datetime) :=
  [("2021-03-04 23:30:15.123456+00:00",
    mk_datetime 2021 3 4 23 30 15 123456 (Some 0));
   ("2020-02-29 10:00:00-05:00",
    mk_datetime 2020 2 29 10 0 0 0 (Some (td_minutes (-300))))].

Definition sample_record (timestamp : string) : json :=
  JObject [("ID", JInt 7); ("Timestamp", JString timestamp); ("Contents", JString "hi")].

Definition sample_channel : string := "/export/package/messages/c1/messages.json".

(** An archive unpacked at [/export/package], run from [/export] with
    [--input package]. *)
Definition archive (present : bool) (profile : result json)
    (channels : list (string * result json)) : environment := {|
  abspath := fun input => os_path_join "/export" input;
  path_exists := fun _ => present;
  open_json := fun path =>
    if String.eqb path "/export/package/account/user.json" then profile
    else match lookup path channels with
         | Some content => content
         | None => Raise OSError
         end;
  glob := fun _ => map fst channels;
  dateutil_parse := fun s =>
    match lookup s sample_timestamps with
    | Some d => Ok d
    | None => Raise ValueError
    end;
  local_utcoffset := fun _ => Ok 0;
  container_repr := fun _ => "{...}"
|}.

Definition sample_messages : json :=
  JArray [sample_record "2021-03-04 23:30:15.123456+00:00";
          sample_record "2020-02-29 10:00:00-05:00"].

Definition sample_archive : environment :=
  archive true (Ok (sample_profile (JInt (-60)))) [(sample_channel, Ok sample_messages)].

Definition empty_archive : environment :=
  archive true (Ok (sample_profile (JInt (-60)))) [].

Definition missing_archive : environment :=
  archive false (Raise OSError) [].

Definition undecodable_archive : environment :=
  archive true (Ok (sample_profile (JInt (-60)))) [(sample_channel, Raise JSONDecodeError)].

Definition nameless_archive : environment :=
  archive true
    (Ok (JObject [("id", JString "1001"); ("settings", sample_localization (JInt (-60)))]))
    [(sample_channel, Ok sample_messages)].

Definition offsetless_archive : environment :=
  archive true
    (Ok (JObject [("global_name", JString "sam");
                  ("settings", JObject [("settings", JObject [("locale", JString "en-GB")])])]))
    [(sample_channel, Ok sample_messages)].

Definition unstamped_archive : environment :=
  archive true (Ok (sample_profile (JInt (-60))))
    [(sample_channel,
      Ok (JArray [sample_record "2021-03-04 23:30:15.123456+00:00";
                  JObject [("ID", JInt 8); ("Contents", JString "no time")]]))].

(** ** Notions for the further properties *)

(** A label assembled from a sign, whole hours and minutes. *)
Definition label_with (negative : bool) (h mi : Z) : string :=
  "UTC" ++ (if negative then "-" else "+") ++ str_nat h
        ++ (if mi =? 0 then "" else ":" ++ format_02d mi).

(** The label of [n] has the sign and the hours of [n]; its minutes are
    those of [n] or one less. *)
Definition label_near (n : Z) : bool :=
  let h := Z.abs n / 60 in
  let mi := Z.abs n mod 60 in
  match utc_string_from_minutes n with
  | Ok s =>
      String.eqb s (label_with (n <? 0) h mi)
      || ((0 <? mi) && String.eqb s (label_with (n <? 0) h (mi - 1)))
  | Raise _ => false
  end.

(** The records of the message files, in the order of the files and,
    within a file, of the records. *)
Fixpoint all_records (env : environment) (mfs : list string) : result (list json) :=
  match mfs with
  | [] => Ok []
  | mf :: rest =>
      let? message_list := open_json env mf in
      let? records := py_iter message_list in
      let? more := all_records env rest in
      Ok (records ++ more)%list
  end.

(** A decoded value that is not a list and over which a loop makes no
    turn: the empty dictionary and the empty string. *)
Definition empty_non_list (j : json) : bool :=
  match j with
  | JObject [] => true
  | JString EmptyString => true
  | _ => false
  end.

Definition is_list (j : json) : bool :=
  match j with
  | JArray _ => true
  | _ => false
  end.

(** A value unary minus rejects. *)
Definition not_a_number (v : json) : bool :=
  match v with
  | JInt _ | JBool _ => false
  | _ => true
  end.

(** The ordinal of a wall clock reading lies in the years 1 to 9999. *)
Definition in_calendar (t : timedelta) : Prop :=
  0 < td_days t <= MAXORDINAL.



(** An environment with its own table of parsed timestamps and its own
    local zone. *)
Definition with_clock (env : environment) (timestamps : list (string * datetime))
    (local : result timedelta) : environment := {|
  abspath := abspath env;
  path_exists := path_exists env;
  open_json := open_json env;
  glob := glob env;
  dateutil_parse := fun s =>
    match lookup s timestamps with
    | Some d => Ok d
    | None => Raise ValueError
    end;
  local_utcoffset := fun _ => local;
  container_repr := container_repr env
|}.

Definition edge_timestamps : list (string * datetime) :=
  [("0001-01-01 00:30:00+01:00", mk_datetime 1 1 1 0 30 0 0 (Some (td_minutes 60)));
   ("9999-12-31 23:30:00-01:00", mk_datetime 9999 12 31 23 30 0 0 (Some (td_minutes (-60))));
   ("2021-03-05 00:30:15+01:00", mk_datetime 2021 3 5 0 30 15 0 (Some (td_minutes 60)));
   ("2021-03-04 18:30:15-05:00", mk_datetime 2021 3 4 18 30 15 0 (Some (td_minutes (-300))));
   ("2021-03-04 23:30:15", mk_datetime 2021 3 4 23 30 15 0 None)].

(** The sample archive on a machine whose local zone is two hours east of
    UTC. *)
Definition edge_archive : environment :=
  with_clock sample_archive edge_timestamps (Ok (td_minutes 120)).

(** An archive with two stray message files: an empty object, and an
    object where a list of records is expected. *)
Definition stray_archive : environment :=
  archive true (Ok (sample_profile (JInt (-60))))
    [("/export/package/messages/a/messages.json", Ok (JObject []));
     ("/export/package/messages/b/messages.json",
      Ok (JObject [("Timestamp", JString "2020-02-29 10:00:00-05:00")]))].

(** * Lemmas *)

(** ** Ranges *)

Lemma range_forallb_spec f len : forall lo,
  range_forallb f lo len = true ->
  forall z, lo <= z < lo + Z.of_nat len -> f z = true.
Proof.
  induction len as [|k IH]; intros lo H z Hz.
  - simpl in Hz. lia.
  - simpl in H. apply andb_true_iff in H as [H0 H1].
    destruct (Z.eq_dec z lo) as [->|Hne]; [exact H0|].
    apply (IH (lo + 1) H1). lia.
Qed.

(** ** Zone labels *)

Lemma label_check_in_range n :
  -1440 < n < 1440 -> label_check n = true.
Proof.
  intros Hn.
  assert (H : range_forallb label_check (-1439) 2879 = true)
    by (vm_compute; reflexivity).
  apply (range_forallb_spec _ _ _ H). lia.
Qed.

(** Inside the range [pytz] accepts, the formatter returns a label of the
    shape [UTC±H] or [UTC±H:MM]; on the quarter hours it is the exact
    label. *)
Lemma utc_string_in_range n :
  -1440 < n < 1440 ->
  exists label, utc_string_from_minutes n = Ok label
                /\ label_shape label = true
                /\ (n mod 15 = 0 -> label = exact_label n).
Proof.
  intros Hn. pose proof (label_check_in_range n Hn) as H.
  unfold label_check in H.
  destruct (utc_string_from_minutes n) as [label|]; [|discriminate].
  apply andb_true_iff in H as [Hshape Hexact].
  exists label. split; [reflexivity|]. split; [exact Hshape|].
  intros H15. apply Z.eqb_eq in H15. rewrite H15 in Hexact.
  apply String.eqb_eq. exact Hexact.
Qed.

Lemma pytz_FixedOffset_ok n tz :
  pytz_FixedOffset n = Ok tz -> -1440 < n < 1440 /\ tz = td_minutes n.
Proof.
  unfold pytz_FixedOffset.
  destruct (Z.eqb_spec n 0) as [->|Hn].
  - intros [= <-]. split; [lia|reflexivity].
  - destruct (Z.leb_spec 1440 (Z.abs n)); [discriminate|].
    intros [= <-]. split; [lia|reflexivity].
Qed.

Lemma pytz_FixedOffset_in_range n :
  -1440 < n < 1440 -> pytz_FixedOffset n = Ok (td_minutes n).
Proof.
  intros Hn. unfold pytz_FixedOffset.
  destruct (Z.eqb_spec n 0) as [->|Hnz]; [reflexivity|].
  destruct (Z.leb_spec 1440 (Z.abs n)); [lia|reflexivity].
Qed.

(** Once the zone is built, the label is built too. *)
Lemma user_timezone_name_total tz_offset tz :
  user_timezone_of tz_offset = Ok tz ->
  exists label, user_timezone_name_of tz_offset = Ok label.
Proof.
  unfold user_timezone_of, user_timezone_name_of.
  destruct (py_neg tz_offset) as [n|]; [|discriminate]. cbn [rbind].
  intros H. apply pytz_FixedOffset_ok in H as [Hn _].
  destruct (utc_string_in_range n Hn) as (label & Hl & _).
  exists label. exact Hl.
Qed.

(** ** The calendar: ordinals and dates *)

Lemma month_day_correct leapyear n :
  0 <= n < 365 -> month_day_ok leapyear n = true.
Proof.
  intros Hn.
  assert (H : range_forallb (month_day_ok leapyear) 0 365 = true)
    by (destruct leapyear; vm_compute; reflexivity).
  apply (range_forallb_spec _ _ _ H). lia.
Qed.

Lemma ord2ymd_unfold n :
  ord2ymd n =
    let N := n - 1 in
    let n400 := N / 146097 in
    let r400 := N mod 146097 in
    let n100 := r400 / 36524 in
    let r100 := r400 mod 36524 in
    let n4 := r100 / 1461 in
    let r4 := r100 mod 1461 in
    let n1 := r4 / 365 in
    let n0 := r4 mod 365 in
    let y := n400 * 400 + 1 + (n100 * 100 + n4 * 4 + n1) in
    if (n1 =? 4) || (n100 =? 4) then (y - 1, 12, 31)
    else
      let '(m, d) := month_day ((n1 =? 3) && (negb (n4 =? 24) || (n100 =? 3))) n0 in
      (y, m, d).
Proof.
  unfold ord2ymd, month_day, DI400Y, DI100Y, DI4Y. cbv zeta.
  destruct (_ || _); [reflexivity|].
  destruct (_ <? _); reflexivity.
Qed.

Lemma is_leap_decomp q n100 n4 n1 :
  0 <= n100 <= 3 -> 0 <= n4 <= 24 -> 0 <= n1 <= 3 ->
  is_leap (q * 400 + 1 + (n100 * 100 + n4 * 4 + n1))
  = (n1 =? 3) && (negb (n4 =? 24) || (n100 =? 3)).
Proof.
  intros H100 H4 H1. unfold is_leap.
  set (y := q * 400 + 1 + (n100 * 100 + n4 * 4 + n1)).
  assert (E4 : y mod 4 = (n1 + 1) mod 4).
  { unfold y. replace (q * 400 + 1 + (n100 * 100 + n4 * 4 + n1))
      with ((n1 + 1) + (q * 100 + n100 * 25 + n4) * 4) by ring.
    apply Z_mod_plus_full. }
  assert (E100 : y mod 100 = (n4 * 4 + n1 + 1) mod 100).
  { unfold y. replace (q * 400 + 1 + (n100 * 100 + n4 * 4 + n1))
      with ((n4 * 4 + n1 + 1) + (q * 4 + n100) * 100) by ring.
    apply Z_mod_plus_full. }
  assert (E400 : y mod 400 = (n100 * 100 + n4 * 4 + n1 + 1) mod 400).
  { unfold y. replace (q * 400 + 1 + (n100 * 100 + n4 * 4 + n1))
      with ((n100 * 100 + n4 * 4 + n1 + 1) + q * 400) by ring.
    apply Z_mod_plus_full. }
  rewrite E4, E100, E400. clear E4 E100 E400 y.
  repeat match goal with
         | |- context [?a =? ?b] => destruct (Z.eqb_spec a b)
         end; simpl; try reflexivity; exfalso;
    Z.to_euclidean_division_equations; lia.
Qed.

Lemma days_before_year_decomp q n100 n4 n1 :
  0 <= n100 <= 3 -> 0 <= n4 <= 24 -> 0 <= n1 <= 3 ->
  days_before_year (q * 400 + 1 + (n100 * 100 + n4 * 4 + n1))
  = 146097 * q + 36524 * n100 + 1461 * n4 + 365 * n1.
Proof.
  intros H100 H4 H1. unfold days_before_year.
  Z.to_euclidean_division_equations. lia.
Qed.

Ltac december :=
  change (table DAYS_IN_MONTH 12) with 31;
  change (table DAYS_BEFORE_MONTH 12) with 334;
  cbn [Z.eqb Pos.eqb Z.ltb Z.compare Pos.compare Pos.compare_cont andb orb negb].

(** [ord2ymd] returns a date of the calendar, the one whose ordinal is its
    argument. *)
Lemma ord2ymd_spec n :
  1 <= n ->
  let '(y, m, d) := ord2ymd n in
  1 <= y /\ 1 <= m <= 12 /\ 1 <= d <= days_in_month y m /\ ymd2ord y m d = n
  /\ (n <= MAXORDINAL -> y <= MAXYEAR).
Proof.
  intros Hn. rewrite ord2ymd_unfold. cbv zeta.
  set (N := n - 1).
  assert (HN : 0 <= N) by (unfold N; lia).
  pose proof (Z.div_mod N 146097 ltac:(lia)) as D400.
  pose proof (Z.mod_pos_bound N 146097 ltac:(lia)) as B400.
  set (n400 := N / 146097) in *. set (r400 := N mod 146097) in *.
  assert (Hq : 0 <= n400) by (apply Z.div_pos; lia).
  pose proof (Z.div_mod r400 36524 ltac:(lia)) as D100.
  pose proof (Z.mod_pos_bound r400 36524 ltac:(lia)) as B100.
  set (n100 := r400 / 36524) in *. set (r100 := r400 mod 36524) in *.
  pose proof (Z.div_mod r100 1461 ltac:(lia)) as D4.
  pose proof (Z.mod_pos_bound r100 1461 ltac:(lia)) as B4.
  set (n4 := r100 / 1461) in *. set (r4 := r100 mod 1461) in *.
  pose proof (Z.div_mod r4 365 ltac:(lia)) as D1.
  pose proof (Z.mod_pos_bound r4 365 ltac:(lia)) as B1.
  set (n1 := r4 / 365) in *. set (n0 := r4 mod 365) in *.
  assert (R100 : 0 <= n100 <= 4) by lia.
  assert (R4 : 0 <= n4 <= 24) by lia.
  assert (R1 : 0 <= n1 <= 4) by lia.
  destruct (Z.eqb_spec n1 4) as [E1|NE1];
    [|destruct (Z.eqb_spec n100 4) as [E100|NE100]]; cbn [orb].
  - (* 31 December of a leap year inside a century *)
    assert (n4 <= 23) by lia. assert (n100 <= 3) by lia.
    replace (n400 * 400 + 1 + (n100 * 100 + n4 * 4 + n1) - 1)
      with (n400 * 400 + 1 + (n100 * 100 + n4 * 4 + 3)) by lia.
    unfold ymd2ord, days_in_month, days_before_month.
    rewrite days_before_year_decomp, is_leap_decomp by lia.
    replace (n4 =? 24) with false by (symmetry; apply Z.eqb_neq; lia).
    december. unfold MAXORDINAL, MAXYEAR. lia.
  - (* 31 December closing a cycle of 400 years *)
    assert (n4 = 0 /\ n1 = 0) as [E4 E1] by lia.
    replace (n400 * 400 + 1 + (n100 * 100 + n4 * 4 + n1) - 1)
      with (n400 * 400 + 1 + (3 * 100 + 24 * 4 + 3)) by lia.
    unfold ymd2ord, days_in_month, days_before_month.
    rewrite days_before_year_decomp, is_leap_decomp by lia.
    december. unfold MAXORDINAL, MAXYEAR. lia.
  - assert (H0 : 0 <= n0 < 365) by lia.
    pose proof (month_day_correct
                  ((n1 =? 3) && (negb (n4 =? 24) || (n100 =? 3))) n0 H0) as MD.
    unfold month_day_ok in MD.
    destruct (month_day _ n0) as [m d].
    unfold ymd2ord, days_in_month, days_before_month.
    rewrite days_before_year_decomp, is_leap_decomp by lia.
    repeat (apply andb_true_iff in MD as [MD ?]).
    unfold MAXORDINAL, MAXYEAR. lia.
Qed.

Lemma days_before_year_step y :
  days_before_year (y + 1)
  = days_before_year y + 365 + (if is_leap y then 1 else 0).
Proof.
  unfold days_before_year, is_leap.
  replace (y + 1 - 1) with y by lia.
  repeat match goal with
         | |- context [?a =? ?b] => destruct (Z.eqb_spec a b)
         end; cbn [andb orb negb];
    Z.to_euclidean_division_equations; lia.
Qed.

Lemma days_before_year_mono a b :
  a <= b -> days_before_year a <= days_before_year b.
Proof.
  intros Hab. destruct (Z.eq_dec a b) as [->|Hne]; [lia|].
  unfold days_before_year. Z.to_euclidean_division_equations. lia.
Qed.

Lemma month_tables y m1 :
  1 <= m1 <= 12 ->
  0 <= days_before_month y m1
  /\ days_before_month y m1 + days_in_month y m1
     <= 365 + (if is_leap y then 1 else 0)
  /\ forall m2, m1 < m2 <= 12 ->
       days_before_month y m1 + days_in_month y m1 <= days_before_month y m2.
Proof.
  intros Hm. unfold days_before_month, days_in_month.
  generalize (is_leap y). intros leap.
  assert (H : range_forallb (month_tables_ok leap) 1 12 = true)
    by (destruct leap; vm_compute; reflexivity).
  pose proof (range_forallb_spec _ _ _ H m1 ltac:(lia)) as Hm1.
  unfold month_tables_ok in Hm1.
  apply andb_true_iff in Hm1 as [Hm1 Hall].
  apply andb_true_iff in Hm1 as [H0 Hsum].
  apply Z.leb_le in H0. apply Z.leb_le in Hsum.
  split; [exact H0|]. split; [exact Hsum|].
  intros m2 Hm2.
  pose proof (range_forallb_spec _ _ _ Hall m2 ltac:(lia)) as Hm12.
  cbv beta in Hm12.
  replace (m1 <? m2) with true in Hm12 by (symmetry; apply Z.ltb_lt; lia).
  cbn [implb] in Hm12. apply Z.leb_le in Hm12. exact Hm12.
Qed.

(** The ordinal grows with the date. *)
Lemma ymd2ord_lt y1 m1 d1 y2 m2 d2 :
  valid_date y1 m1 d1 -> valid_date y2 m2 d2 ->
  lex_compare [y1; m1; d1] [y2; m2; d2] = Lt ->
  ymd2ord y1 m1 d1 < ymd2ord y2 m2 d2.
Proof.
  intros [Hm1 Hd1] [Hm2 Hd2]. unfold ymd2ord. cbn [lex_compare].
  pose proof (month_tables y1 m1 Hm1) as (P1 & S1 & L1).
  pose proof (month_tables y2 m2 Hm2) as (P2 & _ & _).
  destruct (Z.compare_spec y1 y2) as [->|Hy|Hy]; [|intros _|discriminate].
  - destruct (Z.compare_spec m1 m2) as [->|Hm|Hm]; [|intros _|discriminate].
    + destruct (Z.compare_spec d1 d2); [discriminate|intros _; lia|discriminate].
    + specialize (L1 m2 ltac:(lia)). lia.
  - pose proof (days_before_year_step y1) as Hstep.
    pose proof (days_before_year_mono (y1 + 1) y2 ltac:(lia)). lia.
Qed.

Lemma lex_compare_antisym a : forall b,
  lex_compare b a = CompOpp (lex_compare a b).
Proof.
  induction a as [|x a IH]; intros [|y b]; cbn; try reflexivity.
  rewrite (Z.compare_antisym x y).
  destruct (x ?= y); cbn; auto.
Qed.

Lemma lex_compare_eq a : forall b,
  lex_compare a b = Eq -> a = b.
Proof.
  induction a as [|x a IH]; intros [|y b]; cbn; try discriminate; try reflexivity.
  destruct (Z.compare_spec x y) as [->| |]; try discriminate.
  intros Hrest. f_equal. apply IH. exact Hrest.
Qed.

(** ** Timedeltas and datetime arithmetic *)

Lemma td_fields t :
  t = td (td_days t) (td_seconds t) (td_microseconds t)
  /\ 0 <= td_seconds t < 86400 /\ 0 <= td_microseconds t < 1000000.
Proof.
  unfold td, td_days, td_seconds, td_microseconds, US_PER_DAY, US_PER_SECOND.
  Z.to_euclidean_division_equations. lia.
Qed.

Lemma td_exact days secs us :
  0 <= secs < 86400 -> 0 <= us < 1000000 ->
  td_days (td days secs us) = days
  /\ td_seconds (td days secs us) = secs
  /\ td_microseconds (td days secs us) = us.
Proof.
  intros Hs Hu.
  unfold td, td_days, td_seconds, td_microseconds, US_PER_DAY, US_PER_SECOND.
  Z.to_euclidean_division_equations. lia.
Qed.

Lemma valid_datetime_iff d :
  valid_datetime d = true <->
  (1 <= year d <= 9999 /\ 1 <= month d <= 12
   /\ 1 <= day d <= days_in_month (year d) (month d))
  /\ (0 <= hour d <= 23 /\ 0 <= minute d <= 59 /\ 0 <= second d <= 59
      /\ 0 <= microsecond d <= 999999).
Proof.
  unfold valid_datetime, check_date_fields, check_time_fields, MINYEAR, MAXYEAR.
  rewrite !andb_true_iff, !Z.leb_le. tauto.
Qed.

(** A sum that [datetime_add] returns is a valid datetime whose wall clock
    is the sum of the operands. *)
Lemma datetime_add_ok d t r :
  datetime_add d t = Ok r ->
  valid_datetime r = true /\ wall_clock r = wall_clock d + t /\ tzinfo r = tzinfo d.
Proof.
  unfold datetime_add.
  set (delta := wall_clock d + t).
  destruct (td_fields delta) as (Hsplit & Hsec & Hus).
  destruct ((0 <? td_days delta) && (td_days delta <=? MAXORDINAL)) eqn:Hrange;
    [|discriminate].
  apply andb_true_iff in Hrange as [Hlo Hhi].
  apply Z.ltb_lt in Hlo. apply Z.leb_le in Hhi.
  pose proof (ord2ymd_spec (td_days delta) ltac:(lia)) as Hord.
  destruct (ord2ymd (td_days delta)) as [[y m] dd].
  destruct Hord as (Hy & Hm & Hd & Hback & Hmax).
  specialize (Hmax Hhi). unfold MAXYEAR in Hmax.
  intros [= <-].
  set (S := td_seconds delta) in *. set (U := td_microseconds delta) in *.
  assert (HS : S = (S / 3600) * 3600 + (S mod 3600 / 60) * 60 + (S mod 3600) mod 60
               /\ 0 <= S / 3600 <= 23 /\ 0 <= S mod 3600 / 60 <= 59
               /\ 0 <= (S mod 3600) mod 60 <= 59)
    by (Z.to_euclidean_division_equations; lia).
  destruct HS as (HS & Hh & Hmi & Hs).
  split; [|split; [|reflexivity]].
  - apply valid_datetime_iff. cbn [year month day hour minute second microsecond]. lia.
  - unfold wall_clock at 1, toordinal.
    cbn [year month day hour minute second microsecond].
    rewrite Hback, <- HS. symmetry. exact Hsplit.
Qed.

Lemma datetime_add_total d t :
  0 < td_days (wall_clock d + t) <= MAXORDINAL ->
  exists r, datetime_add d t = Ok r.
Proof.
  intros [Hlo Hhi]. unfold datetime_add.
  apply Z.ltb_lt in Hlo. apply Z.leb_le in Hhi. rewrite Hlo, Hhi. cbn.
  destruct (ord2ymd _) as [[y m] dd]. eexists. reflexivity.
Qed.

Lemma check_utc_offset_ok off r :
  check_utc_offset off = Ok r -> r = off.
Proof.
  unfold check_utc_offset. destruct (_ && _); [intros [= <-]; reflexivity|discriminate].
Qed.

Lemma check_utc_offset_in_range off :
  - td 1 0 0 < off < td 1 0 0 -> check_utc_offset off = Ok off.
Proof.
  intros [Hlo Hhi]. unfold check_utc_offset.
  apply Z.ltb_lt in Hlo. apply Z.ltb_lt in Hhi. rewrite Hlo, Hhi. reflexivity.
Qed.

Lemma wall_clock_replace_tzinfo d tz :
  wall_clock (replace_tzinfo d tz) = wall_clock d.
Proof. reflexivity. Qed.

Lemma tz_fromutc_ok (tz : timedelta) dt r :
  tz_fromutc tz dt = Ok r ->
  valid_datetime r = true /\ wall_clock r = wall_clock dt + tz /\ tzinfo r = tzinfo dt.
Proof.
  unfold tz_fromutc.
  destruct (check_utc_offset tz) as [dtoff|] eqn:Hoff; [|discriminate].
  apply check_utc_offset_ok in Hoff as ->. cbn [rbind]. rewrite Z.sub_0_r.
  destruct (Z.eqb_spec tz 0) as [->|Hnz]; cbn [rbind].
  - intros H. apply datetime_add_ok in H. exact H.
  - destruct (datetime_add dt tz) as [dt'|] eqn:H1; [|discriminate]. cbn [rbind].
    intros H2. apply datetime_add_ok in H1 as (_ & W1 & T1).
    apply datetime_add_ok in H2 as (V2 & W2 & T2).
    split; [exact V2|]. split; [lia|congruence].
Qed.

(** ** [astimezone] *)

Lemma astimezone_ok lo self (tz off : timedelta) r :
  tzinfo self = Some off ->
  astimezone lo self tz = Ok r ->
  valid_datetime r = true
  /\ wall_clock r = wall_clock self - off + tz
  /\ tzinfo r = Some tz.
Proof.
  intros Htz. unfold astimezone. rewrite Htz.
  destruct (check_utc_offset off) as [myoffset|] eqn:Hoff; [|discriminate].
  apply check_utc_offset_ok in Hoff as ->. cbn [rbind].
  destruct (datetime_add self (- off)) as [utc|] eqn:Hutc; [|discriminate].
  cbn [rbind]. intros H. apply tz_fromutc_ok in H as (V & W & T).
  apply datetime_add_ok in Hutc as (_ & Wu & _).
  rewrite wall_clock_replace_tzinfo in W.
  split; [exact V|]. split; [lia|exact T].
Qed.

Lemma astimezone_valid lo self (tz : timedelta) r :
  astimezone lo self tz = Ok r -> valid_datetime r = true /\ tzinfo r = Some tz.
Proof.
  unfold astimezone.
  destruct (match tzinfo self with
            | None => lo self
            | Some off => check_utc_offset off
            end) as [myoffset|]; [|discriminate].
  cbn [rbind].
  destruct (datetime_add self (- myoffset)) as [utc|]; [|discriminate].
  cbn [rbind]. intros H. apply tz_fromutc_ok in H as (V & _ & T). split; assumption.
Qed.

Lemma astimezone_total lo self (tz off : timedelta) :
  tzinfo self = Some off ->
  - td 1 0 0 < off < td 1 0 0 ->
  - td 1 0 0 < tz < td 1 0 0 ->
  0 < td_days (wall_clock self - off) <= MAXORDINAL ->
  0 < td_days (wall_clock self - off + tz) <= MAXORDINAL ->
  exists r, astimezone lo self tz = Ok r.
Proof.
  intros Htz Hoff Htzr Hutc Hloc. unfold astimezone. rewrite Htz.
  rewrite (check_utc_offset_in_range off Hoff). cbn [rbind].
  destruct (datetime_add_total self (- off)) as [utc Hu].
  { replace (wall_clock self + - off) with (wall_clock self - off) by lia. exact Hutc. }
  rewrite Hu. cbn [rbind].
  pose proof (datetime_add_ok _ _ _ Hu) as (Vu & Wu & _).
  unfold tz_fromutc. rewrite (check_utc_offset_in_range tz Htzr). cbn [rbind].
  cbv zeta. rewrite Z.sub_0_r.
  assert (Hlast : forall dt,
             wall_clock dt = wall_clock self - off + tz ->
             exists r, datetime_add dt 0 = Ok r).
  { intros dt Wd. apply datetime_add_total. rewrite Z.add_0_r, Wd. exact Hloc. }
  destruct (Z.eqb_spec tz 0) as [E|N]; cbn [rbind].
  - apply Hlast. rewrite wall_clock_replace_tzinfo. lia.
  - destruct (datetime_add_total (replace_tzinfo utc (@Some timedelta tz)) tz)
      as [dt' Hd].
    { rewrite wall_clock_replace_tzinfo, Wu.
      replace (wall_clock self + - off + tz) with (wall_clock self - off + tz) by lia.
      exact Hloc. }
    rewrite Hd. cbn [rbind].
    apply datetime_add_ok in Hd as (Vd & Wd & _).
    apply Hlast. rewrite Wd, wall_clock_replace_tzinfo. lia.
Qed.

(** ** Buckets *)

Lemma bucket_valid date :
  valid_datetime date = true ->
  bucket date = Ok (date_bucket date, time_bucket date).
Proof.
  intros Hv. unfold bucket, datetime_new.
  unfold valid_datetime in Hv. apply andb_true_iff in Hv as [Hd Ht].
  rewrite Hd.
  assert (Ht0 : check_time_fields (hour date) (minute date) (second date) 0 = true).
  { unfold check_time_fields in *.
    repeat (apply andb_true_iff in Ht as [Ht ?]).
    repeat (apply andb_true_iff; split); try assumption; reflexivity. }
  rewrite Ht0.
  change (check_time_fields 0 0 0 0) with true.
  change (check_date_fields 1970 1 1) with true.
  reflexivity.
Qed.

Lemma bucketize_spec message_dates : forall dates times,
  Forall (fun d => valid_datetime d = true) message_dates ->
  bucketize message_dates dates times
  = Ok ((dates ++ map date_bucket message_dates)%list,
        (times ++ map time_bucket message_dates)%list).
Proof.
  induction message_dates as [|d rest IH]; intros dates times Hall.
  - cbn. rewrite !app_nil_r. reflexivity.
  - inversion Hall as [|? ? Hd Hrest]; subst.
    cbn [bucketize]. rewrite (bucket_valid d Hd). cbn [rbind].
    rewrite IH by assumption. cbn [map]. rewrite <- !app_assoc. reflexivity.
Qed.

Lemma date_bucket_is_date_bucket d :
  valid_datetime d = true -> is_date_bucket (date_bucket d).
Proof.
  intros Hv. split; [|reflexivity].
  unfold valid_datetime in *. apply andb_true_iff in Hv as [Hd _].
  cbn. rewrite Hd. reflexivity.
Qed.

Lemma lex_compare_date_bucket a b :
  lex_compare (fields (date_bucket a)) (fields (date_bucket b))
  = lex_compare [year a; month a; day a] [year b; month b; day b].
Proof.
  cbn. destruct (year a ?= year b), (month a ?= month b), (day a ?= day b);
    reflexivity.
Qed.

(** On Date Buckets the order of [datetime] is the order of the ordinals. *)
Lemma datetime_lt_ordinal a b :
  is_date_bucket a -> is_date_bucket b ->
  datetime_lt a b = (toordinal a <? toordinal b).
Proof.
  intros [Va Ea] [Vb Eb]. unfold datetime_lt.
  rewrite Ea, Eb, lex_compare_date_bucket.
  change (toordinal (date_bucket a)) with (toordinal a).
  change (toordinal (date_bucket b)) with (toordinal b).
  apply valid_datetime_iff in Va as ((_ & Ma & Da) & _).
  apply valid_datetime_iff in Vb as ((_ & Mb & Db) & _).
  assert (VA : valid_date (year a) (month a) (day a)) by (split; assumption).
  assert (VB : valid_date (year b) (month b) (day b)) by (split; assumption).
  destruct (lex_compare [year a; month a; day a] [year b; month b; day b]) eqn:C.
  - apply lex_compare_eq in C. injection C as Hy Hm Hd.
    unfold toordinal. rewrite Hy, Hm, Hd. symmetry. apply Z.ltb_irrefl.
  - symmetry. apply Z.ltb_lt. apply ymd2ord_lt; assumption.
  - symmetry. apply Z.ltb_ge.
    rewrite lex_compare_antisym in C.
    destruct (lex_compare [year b; month b; day b] [year a; month a; day a]) eqn:C';
      try discriminate.
    apply Z.lt_le_incl. apply ymd2ord_lt; assumption.
Qed.

Lemma py_max_spec l x :
  Forall is_date_bucket (x :: l) ->
  exists hi, py_max (x :: l) = Ok hi /\ In hi (x :: l)
             /\ forall d, In d (x :: l) -> toordinal d <= toordinal hi.
Proof.
  intros Hall. cbn [py_max]. eexists. split; [reflexivity|].
  inversion Hall as [|? ? Hx Hl]; subst. clear Hall.
  revert x Hx. induction l as [|y l IH]; intros x Hx.
  - cbn. split; [auto|]. intros d [<-|[]]. lia.
  - inversion Hl as [|? ? Hy Hl']; subst. cbn [fold_left].
    rewrite (datetime_lt_ordinal x y Hx Hy).
    destruct (Z.ltb_spec (toordinal x) (toordinal y)) as [Hlt|Hge].
    + destruct (IH Hl' y Hy) as [Hin Hmax]. split.
      * destruct Hin as [<-|Hin]; cbn; auto.
      * intros d [<-|[<-|Hd]].
        -- specialize (Hmax y (or_introl eq_refl)). lia.
        -- apply Hmax. left. reflexivity.
        -- apply Hmax. right. exact Hd.
    + destruct (IH Hl' x Hx) as [Hin Hmax]. split.
      * destruct Hin as [<-|Hin]; cbn; auto.
      * intros d [<-|[<-|Hd]].
        -- apply Hmax. left. reflexivity.
        -- specialize (Hmax x (or_introl eq_refl)). lia.
        -- apply Hmax. right. exact Hd.
Qed.

Lemma py_min_spec l x :
  Forall is_date_bucket (x :: l) ->
  exists lo, py_min (x :: l) = Ok lo /\ In lo (x :: l)
             /\ forall d, In d (x :: l) -> toordinal lo <= toordinal d.
Proof.
  intros Hall. cbn [py_min]. eexists. split; [reflexivity|].
  inversion Hall as [|? ? Hx Hl]; subst. clear Hall.
  revert x Hx. induction l as [|y l IH]; intros x Hx.
  - cbn. split; [auto|]. intros d [<-|[]]. lia.
  - inversion Hl as [|? ? Hy Hl']; subst. cbn [fold_left].
    rewrite (datetime_lt_ordinal y x Hy Hx).
    destruct (Z.ltb_spec (toordinal y) (toordinal x)) as [Hlt|Hge].
    + destruct (IH Hl' y Hy) as [Hin Hmin]. split.
      * destruct Hin as [<-|Hin]; cbn; auto.
      * intros d [<-|[<-|Hd]].
        -- specialize (Hmin y (or_introl eq_refl)). lia.
        -- apply Hmin. left. reflexivity.
        -- apply Hmin. right. exact Hd.
    + destruct (IH Hl' x Hx) as [Hin Hmin]. split.
      * destruct Hin as [<-|Hin]; cbn; auto.
      * intros d [<-|[<-|Hd]].
        -- apply Hmin. left. reflexivity.
        -- specialize (Hmin x (or_introl eq_refl)). lia.
        -- apply Hmin. right. exact Hd.
Qed.

(** ** The parsing loops *)

Section Parsing.

Variable env : environment.
Variable tz : timedelta.

Lemma parse_records_app rs1 : forall rs2 acc,
  parse_records env tz (rs1 ++ rs2)%list acc
  = rbind (parse_records env tz rs1 acc) (parse_records env tz rs2).
Proof.
  induction rs1 as [|msg rs1 IH]; intros rs2 acc; cbn [parse_records app rbind].
  - reflexivity.
  - destruct (normalize env tz msg); cbn [rbind]; [apply IH|reflexivity].
Qed.

Lemma parse_files_app fs1 : forall fs2 acc,
  parse_files env tz (fs1 ++ fs2)%list acc
  = rbind (parse_files env tz fs1 acc) (parse_files env tz fs2).
Proof.
  induction fs1 as [|mf fs1 IH]; intros fs2 acc; cbn [parse_files app rbind].
  - reflexivity.
  - destruct (open_json env mf) as [j|]; cbn [rbind]; [|reflexivity].
    destruct (py_iter j) as [rs|]; cbn [rbind]; [|reflexivity].
    destruct (parse_records env tz rs acc); cbn [rbind]; [apply IH|reflexivity].
Qed.

Lemma normalize_unparsable msg :
  unparsable env msg -> exists e, normalize env tz msg = Raise e.
Proof.
  intros [e He]. unfold normalize.
  destruct (getitem msg "Timestamp") as [ts|]; cbn [rbind] in *.
  - rewrite He. cbn [rbind]. eexists; reflexivity.
  - eexists; reflexivity.
Qed.

Lemma parse_records_unparsable rs : forall acc,
  Exists (unparsable env) rs -> exists e, parse_records env tz rs acc = Raise e.
Proof.
  induction rs as [|msg rs IH]; intros acc Hex;
    inversion Hex as [? ? Hbad|? ? Hlater]; subst; cbn [parse_records].
  - destruct (normalize_unparsable msg Hbad) as [e ->]. eexists; reflexivity.
  - destruct (normalize env tz msg); cbn [rbind]; [apply IH; assumption|].
    eexists; reflexivity.
Qed.

Lemma parse_files_malformed fs : forall acc,
  Exists (malformed env) fs -> exists e, parse_files env tz fs acc = Raise e.
Proof.
  induction fs as [|mf fs IH]; intros acc Hex;
    inversion Hex as [? ? Hbad|? ? Hlater]; subst; cbn [parse_files].
  - destruct Hbad as [[e He]|(j & rs & Hj & Hrs & Hbad)].
    + destruct (open_json env mf) as [j|]; cbn [rbind] in *;
        [rewrite He|]; eexists; reflexivity.
    + rewrite Hj. cbn [rbind]. rewrite Hrs. cbn [rbind].
      destruct (parse_records_unparsable rs acc Hbad) as [e ->].
      eexists; reflexivity.
  - destruct (open_json env mf) as [j|]; cbn [rbind]; [|eexists; reflexivity].
    destruct (py_iter j) as [rs|]; cbn [rbind]; [|eexists; reflexivity].
    destruct (parse_records env tz rs acc); cbn [rbind];
      [apply IH; assumption|eexists; reflexivity].
Qed.

Lemma normalize_normalized msg d :
  normalize env tz msg = Ok d -> normalized tz d.
Proof.
  unfold normalize.
  destruct (getitem msg "Timestamp") as [ts|]; [|discriminate]. cbn [rbind].
  destruct (parser_parse env ts) as [p|]; [|discriminate]. cbn [rbind].
  apply astimezone_valid.
Qed.

Lemma parse_records_normalized rs : forall acc out,
  Forall (normalized tz) acc ->
  parse_records env tz rs acc = Ok out -> Forall (normalized tz) out.
Proof.
  induction rs as [|msg rs IH]; intros acc out Hacc; cbn [parse_records].
  - intros [= <-]. exact Hacc.
  - destruct (normalize env tz msg) as [d|] eqn:Hd; [|discriminate]. cbn [rbind].
    apply IH. apply Forall_app. split; [exact Hacc|].
    constructor; [|constructor]. exact (normalize_normalized msg d Hd).
Qed.

Lemma parse_files_normalized fs : forall acc out,
  Forall (normalized tz) acc ->
  parse_files env tz fs acc = Ok out -> Forall (normalized tz) out.
Proof.
  induction fs as [|mf fs IH]; intros acc out Hacc; cbn [parse_files].
  - intros [= <-]. exact Hacc.
  - destruct (open_json env mf) as [j|]; [|discriminate]. cbn [rbind].
    destruct (py_iter j) as [rs|]; [|discriminate]. cbn [rbind].
    destruct (parse_records env tz rs acc) as [acc'|] eqn:Hrs; [|discriminate].
    cbn [rbind]. apply IH. exact (parse_records_normalized rs acc acc' Hacc Hrs).
Qed.

Lemma parse_files_lacks_timestamp pre mf post j rs1 members rs2 acc1 acc2 :
  parse_files env tz pre [] = Ok acc1 ->
  open_json env mf = Ok j ->
  py_iter j = Ok (rs1 ++ JObject members :: rs2)%list ->
  parse_records env tz rs1 acc1 = Ok acc2 ->
  assoc "Timestamp" members = None ->
  parse_files env tz (pre ++ mf :: post)%list [] = Raise (KeyError "Timestamp").
Proof.
  intros Hpre Hj Hit Hrs Hmiss.
  rewrite parse_files_app, Hpre. cbn [rbind parse_files].
  rewrite Hj. cbn [rbind]. rewrite Hit. cbn [rbind].
  rewrite parse_records_app, Hrs. cbn [rbind parse_records].
  unfold normalize. cbn [getitem]. rewrite Hmiss. reflexivity.
Qed.

End Parsing.

Lemma normalized_valid tz l :
  Forall (normalized tz) l -> Forall (fun d => valid_datetime d = true) l.
Proof.
  intros H. eapply Forall_impl; [|exact H]. intros d [Hv _]. exact Hv.
Qed.

(** The dates the bucketing loop returns for the timestamps of the parsing
    loops are Date Buckets. *)
Lemma pipeline_dates_are_date_buckets env tz fs message_dates dates times :
  parse_files env tz fs [] = Ok message_dates ->
  bucketize message_dates [] [] = Ok (dates, times) ->
  Forall is_date_bucket dates.
Proof.
  intros Hparse Hb.
  pose proof (parse_files_normalized env tz fs [] message_dates
                (Forall_nil _) Hparse) as Hnorm.
  apply normalized_valid in Hnorm.
  rewrite (bucketize_spec message_dates [] [] Hnorm) in Hb.
  injection Hb as <- _. cbn [app].
  apply Forall_map. eapply Forall_impl; [|exact Hnorm].
  intros d Hd. apply date_bucket_is_date_bucket. exact Hd.
Qed.

(** ** Missing fields *)

Lemma getitem_lacks v k rest key :
  lacks_field v (k :: rest) key ->
  getitem v k = Raise (KeyError key) /\ key = k
  \/ exists x, getitem v k = Ok x /\ lacks_field x rest key.
Proof.
  intros H. inversion H as [? ? ? Hnone|? ? x ? ? Hsome Hrest]; subst;
    cbn [getitem].
  - left. rewrite Hnone. split; reflexivity.
  - right. rewrite Hsome. exists x. split; [reflexivity|assumption].
Qed.

Lemma timezone_offset_field_lacks user_info key :
  lacks_field user_info offset_path key ->
  timezone_offset_field user_info = Raise (KeyError key).
Proof.
  unfold offset_path, timezone_offset_field. intros H.
  repeat match goal with
         | H : lacks_field _ (_ :: _) _ |- _ =>
             apply getitem_lacks in H as [[-> _]|(? & -> & H)]; cbn [rbind];
             [reflexivity|]
         end.
  inversion H.
Qed.

(** ** Runs of [main] *)

Ltac unfold_prog :=
  unfold run, main, bind, lift, print, savefig, ret, sys_exit, initial_world;
  cbv beta iota zeta.

Ltac case_stage :=
  match goal with
  | |- context [match ?r with Ok _ => _ | Raise _ => _ end] =>
      let E := fresh "E" in destruct r eqn:E
  | |- context [if ?b then _ else _] =>
      let E := fresh "E" in destruct b eqn:E
  | |- context [match ?p with pair _ _ => _ end] => is_var p; destruct p
  end; cbv beta iota zeta.

Lemma negb_present env input :
  negb (path_exists env (user_json_path (abspath env input)))
  || negb (path_exists env (messages_path (abspath env input)))
  = negb (archive_present env input).
Proof. unfold archive_present. rewrite negb_andb. reflexivity. Qed.

Lemma run_invalid_archive env input :
  archive_present env input = false ->
  run (main env input)
  = ({| console := [invalid_archive_message (abspath env input)]; files := [] |},
     SysExit 1).
Proof.
  intros H. unfold_prog. rewrite negb_present, H. reflexivity.
Qed.

(** The three ways a run can end. *)
Lemma run_outcomes env input :
  let r := run (main env input) in
  (archive_present env input = false /\ snd r = SysExit 1 /\ files (fst r) = [])
  \/ (archive_present env input = true
      /\ (exists e, snd r = Uncaught e) /\ files (fst r) = [])
  \/ (archive_present env input = true
      /\ snd r = Completed
      /\ written_paths (fst r) = output_paths env input
      /\ exists user_name tz label message_dates,
           profile_loaded env input user_name tz label
           /\ parse_files env tz (message_files env input) [] = Ok message_dates).
Proof.
  unfold message_files. unfold_prog. rewrite negb_present.
  destruct (archive_present env input) eqn:Hpresent; cbn [negb];
    cbv beta iota zeta; [|left; cbn; auto].
  right.
  repeat case_stage; cbn [fst snd files written_paths map app];
    try solve [ left; split; [reflexivity|]; split;
                [eexists; reflexivity|reflexivity] ].
  right. split; [reflexivity|]. split; [reflexivity|]. split; [reflexivity|].
  do 4 eexists. split; [|eassumption].
  do 2 eexists. repeat split; eassumption.
Qed.

Ltac enter_main Hp :=
  unfold_prog; rewrite negb_present, Hp; cbn [negb]; cbv beta iota zeta.

Ltac stage H := rewrite H; cbv beta iota zeta.

Lemma run_lacks_global_name env input user_info key :
  archive_present env input = true ->
  open_json env (user_json_path (abspath env input)) = Ok user_info ->
  lacks_field user_info ["global_name"] key ->
  run (main env input)
  = ({| console := []; files := [] |}, Uncaught (KeyError "global_name")).
Proof.
  intros Hp Ho Hl.
  apply getitem_lacks in Hl as [[Hg ->]|(x & _ & Hx)]; [|inversion Hx].
  enter_main Hp. stage Ho. stage Hg. reflexivity.
Qed.

Lemma run_lacks_offset env input user_info user_name key :
  archive_present env input = true ->
  open_json env (user_json_path (abspath env input)) = Ok user_info ->
  getitem user_info "global_name" = Ok user_name ->
  lacks_field user_info offset_path key ->
  run (main env input)
  = ({| console := ["discord user: " ++ py_str env user_name]; files := [] |},
     Uncaught (KeyError key)).
Proof.
  intros Hp Ho Hg Hl. apply timezone_offset_field_lacks in Hl.
  enter_main Hp. stage Ho. stage Hg. cbn [console]. stage Hl. reflexivity.
Qed.

(** A failure of the parsing loops ends the run after three lines of
    output. *)
Lemma run_parse_failure env input user_name tz label e :
  archive_present env input = true ->
  profile_loaded env input user_name tz label ->
  parse_files env tz (message_files env input) [] = Raise e ->
  run (main env input)
  = ({| console := ["discord user: " ++ py_str env user_name;
                    "finding messages…"; "parsing messages…"];
        files := [] |},
     Uncaught e).
Proof.
  intros Hp (user_info & tz_offset & Ho & Hg & Hf & Hz & Hn) Hparse.
  unfold message_files in Hparse.
  enter_main Hp. stage Ho. stage Hg. stage Hf. stage Hz. stage Hn.
  cbn [console files app]. stage Hparse. reflexivity.
Qed.

(** * The zone label *)

(** The three labels quoted for the formatter. *)
Lemma zone_label_examples :
  user_timezone_name_of (JInt 0) = Ok "UTC+0"
  /\ user_timezone_name_of (JInt (-60)) = Ok "UTC+1"
  /\ user_timezone_name_of (JInt 330) = Ok "UTC-5:30".
Proof. repeat split; vm_compute; reflexivity. Qed.

(** For every stored offset [pytz] accepts, the label has the shape
    [UTC±H] or [UTC±H:MM]: a sign always, two digits of minutes or none.
    When the offset is a multiple of a quarter of an hour, the label is the
    exact one. *)
Lemma zone_label_in_range (stored : Z) :
  -1440 < stored < 1440 ->
  exists label, user_timezone_name_of (JInt stored) = Ok label
                /\ label_shape label = true
                /\ (stored mod 15 = 0 -> label = exact_label (- stored)).
Proof.
  intros Hs. unfold user_timezone_name_of. cbn [py_neg rbind].
  destruct (utc_string_in_range (- stored) ltac:(lia)) as (label & Hl & Hshape & Hex).
  exists label. split; [exact Hl|]. split; [exact Hshape|].
  intros H15. apply Hex.
  rewrite Z.mod_opp_l_z by lia. reflexivity.
Qed.

(** The arithmetic behind the lost minute: 61/60 is rounded, its
    fractional part times 60 falls short of 1, and the truncation leaves
    0. *)
Lemma sixty_one_minutes_trace :
  let '(minutes_frac, hours) := Float.math_modf (Float.int_true_div 61 60) in
  hours = S754_finite false 4503599627370496 (-52)
  /\ Float.mul minutes_frac (Float.of_int 60)
     = S754_finite false 9007199254740960 (-53)
  /\ Float.numpy_fix (Float.mul minutes_frac (Float.of_int 60)) = S754_zero false.
Proof. vm_compute. repeat split. Qed.

(** C1, at the stored offset -61: the offset of 61 minutes east of UTC,
    whose label with its minutes shown is [UTC+1:01], is labelled [UTC+1] by
    the formatter, the minutes left out although they are not zero; at -80
    the minutes shown are 19 where the offset has 20. *)
Theorem zone_label_loses_minute :
  user_timezone_name_of (JInt (-61)) = Ok "UTC+1"
  /\ exact_label 61 = "UTC+1:01"
  /\ user_timezone_name_of (JInt (-80)) = Ok "UTC+1:19"
  /\ exact_label 80 = "UTC+1:20".
Proof. repeat split; vm_compute; reflexivity. Qed.

(** * Buckets *)

(** C2: for every message the script normalizes, the two buckets exist,
    and the date of the Date Bucket together with the time of day of the
    Time Bucket is the wall clock reading of the normalized timestamp
    truncated to the second; the Date Bucket is at midnight and the Time
    Bucket on 1970-01-01. *)
Theorem buckets_recombine env tz msg date :
  normalize env tz msg = Ok date ->
  exists only_date only_time,
    bucket date = Ok (only_date, only_time)
    /\ recombine only_date only_time = to_the_second date
    /\ (hour only_date, minute only_date, second only_date, microsecond only_date)
       = (0, 0, 0, 0)
    /\ (year only_time, month only_time, day only_time, microsecond only_time)
       = (1970, 1, 1, 0).
Proof.
  intros Hn. apply normalize_normalized in Hn as [Hv _].
  exists (date_bucket date), (time_bucket date).
  split; [exact (bucket_valid date Hv)|]. repeat split.
Qed.

Lemma buckets_recombine_witness :
  let date := mk_datetime 2021 3 5 0 30 15 123456 (Some (td_minutes 60)) in
  normalize sample_archive (td_minutes 60)
    (sample_record "2021-03-04 23:30:15.123456+00:00") = Ok date
  /\ exists only_date only_time,
       bucket date = Ok (only_date, only_time)
       /\ recombine only_date only_time = to_the_second date
       /\ (hour only_date, minute only_date, second only_date, microsecond only_date)
          = (0, 0, 0, 0)
       /\ (year only_time, month only_time, day only_time, microsecond only_time)
          = (1970, 1, 1, 0).
Proof.
  split; [vm_compute; reflexivity|].
  apply (buckets_recombine sample_archive (td_minutes 60)
           (sample_record "2021-03-04 23:30:15.123456+00:00")).
  vm_compute; reflexivity.
Defined.

(** C7: after the bucketing loop, [dates] and [times] have the length of
    [message_dates], and at every index both hold the buckets of the
    timestamp at that index. *)
Theorem buckets_parallel env tz files message_dates :
  parse_files env tz files [] = Ok message_dates ->
  exists dates times,
    bucketize message_dates [] [] = Ok (dates, times)
    /\ List.length dates = List.length message_dates
    /\ List.length times = List.length message_dates
    /\ forall i date,
         nth_error message_dates i = Some date ->
         exists only_date only_time,
           bucket date = Ok (only_date, only_time)
           /\ nth_error dates i = Some only_date
           /\ nth_error times i = Some only_time.
Proof.
  intros Hparse.
  pose proof (parse_files_normalized env tz files [] message_dates
                (Forall_nil _) Hparse) as Hnorm.
  apply normalized_valid in Hnorm.
  exists (map date_bucket message_dates), (map time_bucket message_dates).
  split; [rewrite (bucketize_spec message_dates [] [] Hnorm); reflexivity|].
  split; [apply length_map|]. split; [apply length_map|].
  intros i date Hi.
  exists (date_bucket date), (time_bucket date).
  rewrite Forall_forall in Hnorm.
  split; [apply bucket_valid, Hnorm; eapply nth_error_In; exact Hi|].
  rewrite !nth_error_map, Hi. split; reflexivity.
Qed.

Lemma buckets_parallel_witness :
  exists message_dates dates times,
    parse_files sample_archive (td_minutes 60) [sample_channel] [] = Ok message_dates
    /\ List.length message_dates = 2%nat
    /\ bucketize message_dates [] [] = Ok (dates, times)
    /\ List.length dates = List.length message_dates
    /\ List.length times = List.length message_dates
    /\ forall i date,
         nth_error message_dates i = Some date ->
         exists only_date only_time,
           bucket date = Ok (only_date, only_time)
           /\ nth_error dates i = Some only_date
           /\ nth_error times i = Some only_time.
Proof.
  assert (Hparse :
    parse_files sample_archive (td_minutes 60) [sample_channel] []
    = Ok [mk_datetime 2021 3 5 0 30 15 123456 (Some (td_minutes 60));
          mk_datetime 2020 2 29 16 0 0 0 (Some (td_minutes 60))])
    by (vm_compute; reflexivity).
  destruct (buckets_parallel sample_archive (td_minutes 60) [sample_channel] _ Hparse)
    as (dates & times & H).
  eexists _, dates, times. split; [exact Hparse|]. split; [reflexivity|exact H].
Defined.

(** C8: for every non-empty sequence of Date Buckets, the figure is sized
    with the height 3 and a width of [days / 200], where [days] is the
    number of days from the least to the greatest Date Bucket. *)
Theorem figure_width_is_day_span dates :
  dates <> [] ->
  Forall is_date_bucket dates ->
  exists lo hi,
    py_min dates = Ok lo /\ py_max dates = Ok hi
    /\ In lo dates /\ In hi dates
    /\ (forall d, In d dates -> toordinal lo <= toordinal d <= toordinal hi)
    /\ compute_figsize dates
       = Ok (Float.int_true_div (toordinal hi - toordinal lo) 200, 3).
Proof.
  intros Hne Hall. destruct dates as [|x l]; [contradiction|].
  destruct (py_max_spec l x Hall) as (hi & Hmax & Hhi_in & Hhi).
  destruct (py_min_spec l x Hall) as (lo & Hmin & Hlo_in & Hlo).
  exists lo, hi. repeat split; try assumption; try (apply Hlo || apply Hhi); auto.
  unfold compute_figsize. rewrite Hmax, Hmin. cbn [rbind].
  rewrite Forall_forall in Hall.
  destruct (Hall hi Hhi_in) as [_ Ehi]. destruct (Hall lo Hlo_in) as [_ Elo].
  unfold datetime_sub. rewrite Ehi, Elo.
  cbn [tzinfo date_bucket hour minute second microsecond rbind].
  change (toordinal (date_bucket hi)) with (toordinal hi).
  change (toordinal (date_bucket lo)) with (toordinal lo).
  replace (td_days _) with (toordinal hi - toordinal lo);
    [reflexivity|].
  symmetry. apply td_exact; cbn; lia.
Qed.

Lemma figure_width_is_day_span_witness :
  let dates := [mk_datetime 2021 3 5 0 0 0 0 None; mk_datetime 2020 2 29 0 0 0 0 None] in
  exists lo hi,
    py_min dates = Ok lo /\ py_max dates = Ok hi
    /\ In lo dates /\ In hi dates
    /\ (forall d, In d dates -> toordinal lo <= toordinal d <= toordinal hi)
    /\ compute_figsize dates
       = Ok (Float.int_true_div (toordinal hi - toordinal lo) 200, 3).
Proof.
  apply figure_width_is_day_span.
  - discriminate.
  - repeat constructor.
Defined.

(** The width of the sample figure: 370 days over 200. *)
Lemma sample_figure_width :
  compute_figsize [mk_datetime 2021 3 5 0 0 0 0 None; mk_datetime 2020 2 29 0 0 0 0 None]
  = Ok (Float.int_true_div 370 200, 3).
Proof. vm_compute. reflexivity. Qed.

(** * Time zone and normalization *)

(** C5: for every stored profile offset, the zone built for the run is the
    fixed offset of the negated stored value (whenever [pytz] builds one:
    within 24 hours), every timestamp the parsing loops produce carries
    that offset, and the stored value -60 gives one hour east of UTC. *)
Theorem profile_offset_negated (stored : Z) :
  user_timezone_of (JInt stored)
  = (if Z.abs stored <? 1440 then Ok (td_minutes (- stored)) else Raise ValueError)
  /\ (forall env tz files message_dates,
        user_timezone_of (JInt stored) = Ok tz ->
        parse_files env tz files [] = Ok message_dates ->
        Forall (fun d => tzinfo d = Some (td_minutes (- stored))) message_dates)
  /\ user_timezone_of (JInt (-60)) = Ok (td 0 3600 0).
Proof.
  split; [|split; [|reflexivity]].
  - unfold user_timezone_of. cbn [py_neg rbind].
    destruct (Z.ltb_spec (Z.abs stored) 1440) as [Hin|Hout].
    + apply pytz_FixedOffset_in_range. lia.
    + unfold pytz_FixedOffset.
      destruct (Z.eqb_spec (- stored) 0); [lia|].
      destruct (Z.leb_spec 1440 (Z.abs (- stored))); [reflexivity|lia].
  - intros env tz files message_dates Htz Hparse.
    unfold user_timezone_of in Htz. cbn [py_neg rbind] in Htz.
    apply pytz_FixedOffset_ok in Htz as [_ ->].
    pose proof (parse_files_normalized env _ files [] message_dates
                  (Forall_nil _) Hparse) as Hnorm.
    eapply Forall_impl; [|exact Hnorm]. intros d [_ Hd]. exact Hd.
Qed.

Lemma profile_offset_negated_witness :
  user_timezone_of (JInt (-60)) = Ok (td_minutes 60)
  /\ exists message_dates,
       parse_files sample_archive (td_minutes 60) [sample_channel] [] = Ok message_dates
       /\ message_dates <> []
       /\ Forall (fun d => tzinfo d = Some (td_minutes (- -60))) message_dates.
Proof.
  split; [reflexivity|].
  assert (Hparse :
    parse_files sample_archive (td_minutes 60) [sample_channel] []
    = Ok [mk_datetime 2021 3 5 0 30 15 123456 (Some (td_minutes 60));
          mk_datetime 2020 2 29 16 0 0 0 (Some (td_minutes 60))])
    by (vm_compute; reflexivity).
  eexists. split; [exact Hparse|]. split; [discriminate|].
  exact (proj1 (proj2 (profile_offset_negated (-60)))
           sample_archive (td_minutes 60) [sample_channel] _ eq_refl Hparse).
Defined.

(** C6: a timestamp string parsed with an explicit zone offset and
    converted to the user's zone denotes the same instant; the result
    differs in its offset, which is the user's.  The conversion succeeds
    whenever the instant, read in UTC and in the user's zone, falls in the
    years 1 to 9999. *)
Theorem normalize_preserves_instant env (tz : timedelta) msg s parsed (off : timedelta) :
  getitem msg "Timestamp" = Ok (JString s) ->
  dateutil_parse env s = Ok parsed ->
  tzinfo parsed = Some off ->
  (forall r, normalize env tz msg = Ok r ->
             instant r = instant parsed /\ tzinfo r = Some tz
             /\ valid_datetime r = true)
  /\ (- td 1 0 0 < off < td 1 0 0 ->
      - td 1 0 0 < tz < td 1 0 0 ->
      0 < td_days (wall_clock parsed - off) <= MAXORDINAL ->
      0 < td_days (wall_clock parsed - off + tz) <= MAXORDINAL ->
      exists r, normalize env tz msg = Ok r).
Proof.
  intros Hts Hparse Hoff. unfold normalize. rewrite Hts. cbn [rbind parser_parse].
  rewrite Hparse. cbn [rbind]. split.
  - intros r Hr.
    destruct (astimezone_ok _ parsed tz off r Hoff Hr) as (Hv & Hw & Ht).
    unfold instant. rewrite Ht, Hoff, Hw.
    split; [f_equal; lia|]. split; [reflexivity|exact Hv].
  - intros Ho Hz Hutc Hloc. apply (astimezone_total _ parsed tz off); assumption.
Qed.

Lemma normalize_preserves_instant_witness :
  let msg := sample_record "2020-02-29 10:00:00-05:00" in
  let parsed := mk_datetime 2020 2 29 10 0 0 0 (Some (td_minutes (-300))) in
  let r := mk_datetime 2020 2 29 16 0 0 0 (Some (td_minutes 60)) in
  normalize sample_archive (td_minutes 60) msg = Ok r
  /\ instant r = instant parsed
  /\ exists r', normalize sample_archive (td_minutes 60) msg = Ok r'.
Proof.
  cbv zeta.
  pose proof (normalize_preserves_instant sample_archive (td_minutes 60)
                (sample_record "2020-02-29 10:00:00-05:00")
                "2020-02-29 10:00:00-05:00"
                (mk_datetime 2020 2 29 10 0 0 0 (Some (td_minutes (-300))))
                (td_minutes (-300)) eq_refl eq_refl eq_refl) as [Hsame Htotal].
  assert (Hrun : normalize sample_archive (td_minutes 60)
                   (sample_record "2020-02-29 10:00:00-05:00")
                 = Ok (mk_datetime 2020 2 29 16 0 0 0 (Some (td_minutes 60))))
    by (vm_compute; reflexivity).
  split; [exact Hrun|]. split; [exact (proj1 (Hsame _ Hrun))|].
  apply Htotal; vm_compute; split; (reflexivity || discriminate).
Defined.

(** * Runs *)

(** C3 as the script behaves: when the archive is accepted, the profile
    loads and no message record is found, the run prints its progress up
    to the graph stage and ends in the [ValueError] that [max] raises on
    the empty sequence, uncaught, with no image written. *)
Theorem empty_result_uncaught env input user_name tz label :
  archive_present env input = true ->
  profile_loaded env input user_name tz label ->
  parse_files env tz (message_files env input) [] = Ok [] ->
  compute_figsize [] = Raise ValueError
  /\ run (main env input)
     = ({| console := ["discord user: " ++ py_str env user_name;
                       "finding messages…"; "parsing messages…";
                       "total messages: 0"; "processing dates…"; "creating graph…"];
           files := [] |},
        Uncaught ValueError).
Proof.
  intros Hp (user_info & tz_offset & Ho & Hg & Hf & Hz & Hn) Hparse.
  split; [reflexivity|].
  unfold message_files in Hparse.
  enter_main Hp. stage Ho. stage Hg. stage Hf. stage Hz. stage Hn.
  cbn [console files app]. stage Hparse. reflexivity.
Qed.

Lemma empty_result_uncaught_witness :
  compute_figsize [] = Raise ValueError
  /\ run (main empty_archive "package")
     = ({| console := ["discord user: sam";
                       "finding messages…"; "parsing messages…";
                       "total messages: 0"; "processing dates…"; "creating graph…"];
           files := [] |},
        Uncaught ValueError).
Proof.
  refine (empty_result_uncaught empty_archive "package" (JString "sam")
            (td_minutes 60) "UTC+1" eq_refl _ eq_refl).
  exists (sample_profile (JInt (-60))), (JInt (-60)).
  repeat split; vm_compute; reflexivity.
Defined.

(** C3 as stated fails on an archive without message files: the run is
    not stopped by a guard with a reported error, it reaches [max] on the
    empty sequence and ends in the uncaught [ValueError]. *)
Lemma empty_archive_unguarded :
  message_files empty_archive "package" = []
  /\ snd (run (main empty_archive "package")) = Uncaught ValueError
  /\ ~ (exists code, snd (run (main empty_archive "package")) = SysExit code).
Proof.
  split; [reflexivity|].
  assert (H : snd (run (main empty_archive "package")) = Uncaught ValueError)
    by (vm_compute; reflexivity).
  split; [exact H|]. intros [code Hc]. rewrite H in Hc. discriminate.
Qed.

(** C4: when the profile file or the messages directory is missing, the
    run prints the one line naming the archive path as invalid, writes no
    image and exits with status 1; a run that completes exits with status
    0, having written the two images. *)
Theorem archive_check_exit_status env input :
  (path_exists env (user_json_path (abspath env input)) = false
   \/ path_exists env (messages_path (abspath env input)) = false ->
   run (main env input)
   = ({| console := [abspath env input ++ " is not a valid discord data archive"];
         files := [] |},
      SysExit 1)
   /\ exit_status (snd (run (main env input))) = 1)
  /\ (snd (run (main env input)) = Completed ->
      exit_status (snd (run (main env input))) = 0
      /\ written_paths (fst (run (main env input))) = output_paths env input).
Proof.
  split.
  - intros Hmissing.
    assert (Hp : archive_present env input = false).
    { unfold archive_present. destruct Hmissing as [-> | ->];
        [reflexivity|apply andb_false_r]. }
    rewrite (run_invalid_archive env input Hp). split; reflexivity.
  - intros Hdone. rewrite Hdone. split; [reflexivity|].
    destruct (run_outcomes env input) as [(_ & H & _)|[(_ & [e H] & _)|(_ & _ & H & _)]].
    + rewrite Hdone in H. discriminate.
    + rewrite Hdone in H. discriminate.
    + exact H.
Qed.

Lemma archive_check_exit_status_witness :
  (run (main missing_archive "package")
   = ({| console := ["/export/package is not a valid discord data archive"];
         files := [] |},
      SysExit 1)
   /\ exit_status (snd (run (main missing_archive "package"))) = 1)
  /\ (snd (run (main sample_archive "package")) = Completed
      /\ exit_status (snd (run (main sample_archive "package"))) = 0
      /\ written_paths (fst (run (main sample_archive "package")))
         = ["/export/package/out.png"; "/export/package/out.svg"]).
Proof.
  split.
  - apply (proj1 (archive_check_exit_status missing_archive "package")).
    left. reflexivity.
  - assert (H : snd (run (main sample_archive "package")) = Completed)
      by (vm_compute; reflexivity).
    split; [exact H|].
    exact (proj2 (archive_check_exit_status sample_archive "package") H).
Defined.

(** C9: an image is written only after the parsing loops have gone through
    every message file; so when a message file fails to decode, or a
    record's timestamp fails to parse, the run ends in an uncaught
    exception and has written no image. *)
Theorem malformed_input_writes_nothing env input :
  (files (fst (run (main env input))) <> [] ->
   exists tz message_dates,
     parse_files env tz (message_files env input) [] = Ok message_dates)
  /\ (archive_present env input = true ->
      Exists (malformed env) (message_files env input) ->
      exists e, snd (run (main env input)) = Uncaught e
                /\ files (fst (run (main env input))) = []).
Proof.
  pose proof (run_outcomes env input) as Hrun. cbv zeta in Hrun.
  destruct Hrun as [(Hp & Hout & Hfiles)
                   |[(Hp & [e Hout] & Hfiles)
                    |(Hp & Hout & Hpaths & name & tz & label & mds & Hprof & Hparse)]].
  - split; [intros Hne; contradiction|].
    intros Hp'. rewrite Hp in Hp'. discriminate.
  - split; [intros Hne; contradiction|].
    intros _ _. exists e. split; assumption.
  - split; [intros _; exists tz, mds; exact Hparse|].
    intros _ Hbad.
    destruct (parse_files_malformed env tz _ [] Hbad) as [e He].
    rewrite He in Hparse. discriminate.
Qed.

Lemma malformed_input_writes_nothing_witness :
  Exists (malformed undecodable_archive) (message_files undecodable_archive "package")
  /\ exists e, snd (run (main undecodable_archive "package")) = Uncaught e
               /\ files (fst (run (main undecodable_archive "package"))) = [].
Proof.
  assert (Hbad : Exists (malformed undecodable_archive)
                   (message_files undecodable_archive "package")).
  { constructor. left. exists JSONDecodeError. reflexivity. }
  split; [exact Hbad|].
  exact (proj2 (malformed_input_writes_nothing undecodable_archive "package")
           eq_refl Hbad).
Defined.

(** C10: when the profile is read but lacks the display name, or lacks a
    field on the way to the stored offset, or when the first record that
    fails is an object without its timestamp field, the run ends in an
    uncaught [KeyError]; the console holds no invalid-archive line and the
    run does not end by [sys.exit(1)]. *)
Theorem missing_field_uncaught_key_error env input :
  archive_present env input = true ->
  (forall user_info key,
     open_json env (user_json_path (abspath env input)) = Ok user_info ->
     lacks_field user_info ["global_name"] key ->
     run (main env input)
     = ({| console := []; files := [] |}, Uncaught (KeyError "global_name")))
  /\ (forall user_info user_name key,
        open_json env (user_json_path (abspath env input)) = Ok user_info ->
        getitem user_info "global_name" = Ok user_name ->
        lacks_field user_info offset_path key ->
        run (main env input)
        = ({| console := ["discord user: " ++ py_str env user_name]; files := [] |},
           Uncaught (KeyError key)))
  /\ (forall user_name tz label pre mf post j rs1 members rs2 acc1 acc2,
        profile_loaded env input user_name tz label ->
        message_files env input = (pre ++ mf :: post)%list ->
        parse_files env tz pre [] = Ok acc1 ->
        open_json env mf = Ok j ->
        py_iter j = Ok (rs1 ++ JObject members :: rs2)%list ->
        parse_records env tz rs1 acc1 = Ok acc2 ->
        assoc "Timestamp" members = None ->
        run (main env input)
        = ({| console := ["discord user: " ++ py_str env user_name;
                          "finding messages…"; "parsing messages…"];
              files := [] |},
           Uncaught (KeyError "Timestamp"))).
Proof.
  intros Hp. split; [|split].
  - intros user_info key. apply run_lacks_global_name. exact Hp.
  - intros user_info user_name key. apply run_lacks_offset. exact Hp.
  - intros user_name tz label pre mf post j rs1 members rs2 acc1 acc2
           Hprof Hfiles Hpre Hj Hit Hrs Hmiss.
    apply (run_parse_failure env input user_name tz label _ Hp Hprof).
    rewrite Hfiles.
    exact (parse_files_lacks_timestamp env tz pre mf post j rs1 members rs2
             acc1 acc2 Hpre Hj Hit Hrs Hmiss).
Qed.

Lemma missing_field_uncaught_key_error_witness :
  run (main nameless_archive "package")
  = ({| console := []; files := [] |}, Uncaught (KeyError "global_name"))
  /\ run (main offsetless_archive "package")
     = ({| console := ["discord user: sam"]; files := [] |},
        Uncaught (KeyError "localization"))
  /\ run (main unstamped_archive "package")
     = ({| console := ["discord user: sam"; "finding messages…"; "parsing messages…"];
           files := [] |},
        Uncaught (KeyError "Timestamp")).
Proof.
  split; [|split].
  - eapply (proj1 (missing_field_uncaught_key_error nameless_archive "package" eq_refl)).
    + reflexivity.
    + apply lacks_here. reflexivity.
  - refine (proj1 (proj2 (missing_field_uncaught_key_error
                            offsetless_archive "package" eq_refl))
              _ (JString "sam") "localization" eq_refl eq_refl _).
    eapply lacks_below; [reflexivity|].
    eapply lacks_below; [reflexivity|].
    apply lacks_here. reflexivity.
  - refine (proj2 (proj2 (missing_field_uncaught_key_error
                            unstamped_archive "package" eq_refl))
              (JString "sam") (td_minutes 60) "UTC+1" [] sample_channel []
              _ [sample_record "2021-03-04 23:30:15.123456+00:00"]
              [("ID", JInt 8); ("Contents", JString "no time")] [] [] _
              _ eq_refl eq_refl eq_refl eq_refl _ eq_refl).
    + exists (sample_profile (JInt (-60))), (JInt (-60)).
      repeat split; vm_compute; reflexivity.
    + vm_compute. reflexivity.
Defined.

(** * Further properties *)

(** ** The formatter *)

Lemma label_near_in_range n :
  -1440 < n < 1440 -> label_near n = true.
Proof.
  intros Hn.
  assert (H : range_forallb label_near (-1439) 2879 = true)
    by (vm_compute; reflexivity).
  apply (range_forallb_spec _ _ _ H). lia.
Qed.

(** X1: on every offset of whole quarters of an hour within a day,
    [utc_string_from_minutes] returns the exact label: sign, hours, and
    the minutes 15, 30 or 45 when there are any. *)
Theorem utc_label_exact_on_quarter_hours n :
  -1440 < n < 1440 -> n mod 15 = 0 ->
  utc_string_from_minutes n = Ok (exact_label n).
Proof.
  intros Hn H15.
  destruct (utc_string_in_range n Hn) as (label & Hl & _ & Hex).
  rewrite Hl, (Hex H15). reflexivity.
Qed.

Lemma utc_label_exact_on_quarter_hours_witness :
  utc_string_from_minutes (-345) = Ok (exact_label (-345))
  /\ exact_label (-345) = "UTC-5:45".
Proof.
  split; [|reflexivity].
  apply utc_label_exact_on_quarter_hours; [lia|reflexivity].
Defined.

(** X2: on every offset within a day the label carries the sign of the
    offset (a minus also west of UTC by less than an hour) and its whole
    hours; the minutes shown are those of the offset or one less. *)
Theorem utc_label_minutes_within_one n :
  -1440 < n < 1440 ->
  exists mi,
    utc_string_from_minutes n = Ok (label_with (n <? 0) (Z.abs n / 60) mi)
    /\ (mi = Z.abs n mod 60 \/ (mi = Z.abs n mod 60 - 1 /\ 0 < Z.abs n mod 60)).
Proof.
  intros Hn. pose proof (label_near_in_range n Hn) as H.
  unfold label_near in H. cbv zeta in H.
  destruct (utc_string_from_minutes n) as [s|]; [|discriminate].
  apply orb_true_iff in H as [H|H].
  - apply String.eqb_eq in H. subst s.
    exists (Z.abs n mod 60). split; [reflexivity|left; reflexivity].
  - apply andb_true_iff in H as [Hpos H].
    apply String.eqb_eq in H. apply Z.ltb_lt in Hpos. subst s.
    exists (Z.abs n mod 60 - 1). split; [reflexivity|right; split; [reflexivity|exact Hpos]].
Qed.

Lemma utc_label_minutes_within_one_witness :
  exists mi,
    utc_string_from_minutes (-20) = Ok (label_with (-20 <? 0) (Z.abs (-20) / 60) mi)
    /\ (mi = Z.abs (-20) mod 60
        \/ (mi = Z.abs (-20) mod 60 - 1 /\ 0 < Z.abs (-20) mod 60)).
Proof. apply utc_label_minutes_within_one. lia. Defined.

(** ** The profile *)

(** X3: when the profile file is there but cannot be opened or decoded,
    the run ends in that exception, uncaught, before anything is printed
    or written. *)
Theorem undecodable_profile_uncaught env input e :
  archive_present env input = true ->
  open_json env (user_json_path (abspath env input)) = Raise e ->
  run (main env input) = ({| console := []; files := [] |}, Uncaught e).
Proof.
  intros Hp Ho. enter_main Hp. stage Ho. reflexivity.
Qed.

Lemma undecodable_profile_uncaught_witness :
  run (main (archive true (Raise JSONDecodeError) [(sample_channel, Ok sample_messages)])
            "package")
  = ({| console := []; files := [] |}, Uncaught JSONDecodeError).
Proof.
  apply undecodable_profile_uncaught; reflexivity.
Defined.

Lemma pytz_FixedOffset_out_of_range n :
  1440 <= Z.abs n -> pytz_FixedOffset n = Raise ValueError.
Proof.
  intros Hn. unfold pytz_FixedOffset.
  destruct (Z.eqb_spec n 0); [lia|].
  destruct (Z.leb_spec 1440 (Z.abs n)); [reflexivity|lia].
Qed.

Lemma py_neg_not_a_number v :
  not_a_number v = true -> py_neg v = Raise TypeError.
Proof. destruct v; (discriminate || reflexivity). Qed.

(** X4: a stored offset of a day or more, in either direction, is refused
    by [pytz]: the run prints the user line and ends in an uncaught
    [ValueError]; nothing is written. *)
Theorem offset_out_of_range_uncaught env input user_info user_name stored :
  archive_present env input = true ->
  open_json env (user_json_path (abspath env input)) = Ok user_info ->
  getitem user_info "global_name" = Ok user_name ->
  timezone_offset_field user_info = Ok (JInt stored) ->
  1440 <= Z.abs stored ->
  run (main env input)
  = ({| console := ["discord user: " ++ py_str env user_name]; files := [] |},
     Uncaught ValueError).
Proof.
  intros Hp Ho Hg Hf Hs.
  assert (Hz : user_timezone_of (JInt stored) = Raise ValueError).
  { unfold user_timezone_of. cbn [py_neg rbind].
    apply pytz_FixedOffset_out_of_range. lia. }
  enter_main Hp. stage Ho. stage Hg. cbn [console]. stage Hf. stage Hz. reflexivity.
Qed.

Lemma offset_out_of_range_uncaught_witness :
  run (main (archive true (Ok (sample_profile (JInt 1440)))
               [(sample_channel, Ok sample_messages)]) "package")
  = ({| console := ["discord user: sam"]; files := [] |}, Uncaught ValueError).
Proof.
  refine (offset_out_of_range_uncaught
            (archive true (Ok (sample_profile (JInt 1440)))
               [(sample_channel, Ok sample_messages)])
            "package" (sample_profile (JInt 1440))
            (JString "sam") 1440 eq_refl eq_refl eq_refl eq_refl _).
  vm_compute. discriminate.
Defined.

(** X5: a stored offset that is not a number (a string, null, a list, an
    object) makes the negation fail: the run prints the user line and ends
    in an uncaught [TypeError]; nothing is written. *)
Theorem offset_not_a_number_uncaught env input user_info user_name tz_offset :
  archive_present env input = true ->
  open_json env (user_json_path (abspath env input)) = Ok user_info ->
  getitem user_info "global_name" = Ok user_name ->
  timezone_offset_field user_info = Ok tz_offset ->
  not_a_number tz_offset = true ->
  run (main env input)
  = ({| console := ["discord user: " ++ py_str env user_name]; files := [] |},
     Uncaught TypeError).
Proof.
  intros Hp Ho Hg Hf Hv.
  assert (Hz : user_timezone_of tz_offset = Raise TypeError).
  { unfold user_timezone_of. rewrite (py_neg_not_a_number _ Hv). reflexivity. }
  enter_main Hp. stage Ho. stage Hg. cbn [console]. stage Hf. stage Hz. reflexivity.
Qed.

Lemma offset_not_a_number_uncaught_witness :
  run (main (archive true (Ok (sample_profile (JString "-60")))
               [(sample_channel, Ok sample_messages)]) "package")
  = ({| console := ["discord user: sam"]; files := [] |}, Uncaught TypeError).
Proof.
  exact (offset_not_a_number_uncaught
           (archive true (Ok (sample_profile (JString "-60")))
              [(sample_channel, Ok sample_messages)])
           "package" (sample_profile (JString "-60"))
           (JString "sam") (JString "-60") eq_refl eq_refl eq_refl eq_refl eq_refl).
Defined.

(** ** Whole runs *)

Lemma compute_figsize_spec dates lo hi :
  Forall is_date_bucket dates ->
  py_max dates = Ok hi -> py_min dates = Ok lo ->
  In hi dates -> In lo dates ->
  compute_figsize dates
  = Ok (Float.int_true_div (toordinal hi - toordinal lo) 200, 3).
Proof.
  intros Hall Hmax Hmin Hhi Hlo.
  unfold compute_figsize. rewrite Hmax, Hmin. cbn [rbind].
  rewrite Forall_forall in Hall.
  destruct (Hall hi Hhi) as [_ Ehi]. destruct (Hall lo Hlo) as [_ Elo].
  unfold datetime_sub. rewrite Ehi, Elo.
  cbn [tzinfo date_bucket hour minute second microsecond rbind].
  change (toordinal (date_bucket hi)) with (toordinal hi).
  change (toordinal (date_bucket lo)) with (toordinal lo).
  replace (td_days _) with (toordinal hi - toordinal lo); [reflexivity|].
  symmetry. apply td_exact; cbn; lia.
Qed.




(** ** The parsing loops, record by record *)

Lemma parse_records_iff env tz rs : forall acc out,
  parse_records env tz rs acc = Ok out <->
  exists ds, Forall2 (fun msg d => normalize env tz msg = Ok d) rs ds
             /\ out = (acc ++ ds)%list.
Proof.
  induction rs as [|msg rs IH]; intros acc out; cbn [parse_records].
  - split.
    + intros [= <-]. exists []. split; [constructor|symmetry; apply app_nil_r].
    + intros (ds & Hds & ->). inversion Hds. rewrite app_nil_r. reflexivity.
  - destruct (normalize env tz msg) as [d|e] eqn:Hd; cbn [rbind].
    + rewrite IH. split.
      * intros (ds & Hds & ->). exists (d :: ds). split; [constructor; assumption|].
        rewrite <- app_assoc. reflexivity.
      * intros (ds & Hds & ->). inversion Hds as [|? d' ? ds' Hd' Hrest]; subst.
        rewrite Hd in Hd'. injection Hd' as <-.
        exists ds'. split; [exact Hrest|]. rewrite <- app_assoc. reflexivity.
    + split; [discriminate|].
      intros (ds & Hds & _). inversion Hds as [|? d' ? ds' Hd' Hrest]; subst.
      rewrite Hd in Hd'. discriminate.
Qed.

Lemma parse_files_iff env tz mfs : forall acc out,
  parse_files env tz mfs acc = Ok out <->
  exists records ds,
    all_records env mfs = Ok records
    /\ Forall2 (fun msg d => normalize env tz msg = Ok d) records ds
    /\ out = (acc ++ ds)%list.
Proof.
  induction mfs as [|mf mfs IH]; intros acc out; cbn [parse_files all_records].
  - split.
    + intros [= <-]. exists [], []. repeat split; [constructor|].
      symmetry; apply app_nil_r.
    + intros (records & ds & [= <-] & Hds & ->). inversion Hds.
      rewrite app_nil_r. reflexivity.
  - destruct (open_json env mf) as [j|]; cbn [rbind];
      [|split; [discriminate|intros (? & ? & ? & _); discriminate]].
    destruct (py_iter j) as [rs|]; cbn [rbind];
      [|split; [discriminate|intros (? & ? & ? & _); discriminate]].
    split.
    + destruct (parse_records env tz rs acc) as [acc'|] eqn:Hrs; [|discriminate].
      cbn [rbind]. intros H. apply IH in H as (more & ds2 & Hmore & Hds2 & ->).
      apply parse_records_iff in Hrs as (ds1 & Hds1 & ->).
      exists (rs ++ more)%list, (ds1 ++ ds2)%list. rewrite Hmore. cbn [rbind].
      split; [reflexivity|]. split; [apply Forall2_app; assumption|].
      rewrite app_assoc. reflexivity.
    + intros (records & ds & Hrec & Hds & ->).
      destruct (all_records env mfs) as [more|]; [|discriminate].
      cbn [rbind] in Hrec. injection Hrec as <-.
      apply Forall2_app_inv_l in Hds as (ds1 & ds2 & Hds1 & Hds2 & ->).
      assert (Hrs : parse_records env tz rs acc = Ok (acc ++ ds1)%list)
        by (apply parse_records_iff; exists ds1; split; [assumption|reflexivity]).
      rewrite Hrs. cbn [rbind]. apply IH.
      exists more, ds2. split; [reflexivity|]. split; [assumption|].
      rewrite app_assoc. reflexivity.
Qed.

(** X8: the parsing loops return exactly when every message file decodes
    to something a loop can run over and every record normalizes; the
    timestamps returned are then the normalizations of the records, one
    per record, in the order of the files and of the records within each
    file.  Nothing is merged or dropped: equal timestamps stay separate
    entries. *)
Theorem messages_in_order env tz mfs message_dates :
  parse_files env tz mfs [] = Ok message_dates <->
  exists records,
    all_records env mfs = Ok records
    /\ Forall2 (fun msg d => normalize env tz msg = Ok d) records message_dates
    /\ List.length message_dates = List.length records.
Proof.
  rewrite parse_files_iff. split.
  - intros (records & ds & Hrec & Hds & ->). exists records. cbn [app].
    split; [exact Hrec|]. split; [exact Hds|].
    symmetry. exact (Forall2_length Hds).
  - intros (records & Hrec & Hds & _). exists records, message_dates.
    repeat split; assumption.
Qed.

Lemma messages_in_order_witness :
  exists message_dates records,
    parse_files sample_archive (td_minutes 60) [sample_channel] [] = Ok message_dates
    /\ all_records sample_archive [sample_channel] = Ok records
    /\ Forall2 (fun msg d => normalize sample_archive (td_minutes 60) msg = Ok d)
         records message_dates
    /\ List.length message_dates = List.length records.
Proof.
  assert (Hparse :
    parse_files sample_archive (td_minutes 60) [sample_channel] []
    = Ok [mk_datetime 2021 3 5 0 30 15 123456 (Some (td_minutes 60));
          mk_datetime 2020 2 29 16 0 0 0 (Some (td_minutes 60))])
    by (vm_compute; reflexivity).
  destruct (proj1 (messages_in_order sample_archive (td_minutes 60)
                     [sample_channel] _) Hparse) as (records & H).
  eexists _, records. split; [exact Hparse|exact H].
Defined.

(** X9: a message file that decodes to something other than a list is
    passed over without a word when it is the empty object or the empty
    string; any other value (null, a number, a boolean, a non-empty object
    or string) ends the loops in a [TypeError]. *)
Theorem non_list_message_file env tz mf rest acc j :
  open_json env mf = Ok j ->
  is_list j = false ->
  parse_files env tz (mf :: rest) acc
  = if empty_non_list j then parse_files env tz rest acc else Raise TypeError.
Proof.
  intros Hj Hlist. cbn [parse_files]. rewrite Hj. cbn [rbind].
  destruct j as [| b | z | s | items | members]; try reflexivity.
  - destruct s as [|c s]; reflexivity.
  - discriminate.
  - destruct members as [|[k v] members]; reflexivity.
Qed.

Lemma non_list_message_file_witness :
  parse_files stray_archive (td_minutes 60)
    ["/export/package/messages/a/messages.json";
     "/export/package/messages/b/messages.json"] []
  = Raise TypeError.
Proof.
  rewrite (non_list_message_file stray_archive (td_minutes 60)
             "/export/package/messages/a/messages.json" _ [] (JObject [])
             eq_refl eq_refl).
  cbn [empty_non_list].
  rewrite (non_list_message_file stray_archive (td_minutes 60)
             "/export/package/messages/b/messages.json" [] []
             (JObject [("Timestamp", JString "2020-02-29 10:00:00-05:00")])
             eq_refl eq_refl).
  reflexivity.
Defined.

(** ** Paths *)

Lemma append_assoc (a b c : string) : (a ++ b) ++ c = a ++ (b ++ c).
Proof. induction a as [|x a IH]; cbn; [reflexivity|rewrite IH; reflexivity]. Qed.

Lemma ends_with_sep_app a c b :
  ends_with_sep (a ++ String c b) = ends_with_sep (String c b).
Proof.
  induction a as [|x a IH]; [reflexivity|].
  change (String x a ++ String c b) with (String x (a ++ String c b)).
  destruct (a ++ String c b) as [|y rest] eqn:E.
  - destruct a; discriminate.
  - cbn [ends_with_sep]. cbn [ends_with_sep] in IH. rewrite IH. reflexivity.
Qed.

Lemma eqb_app_nonempty a c b : String.eqb (a ++ String c b) "" = false.
Proof. destruct a; reflexivity. Qed.

Lemma os_path_join_plain a c b :
  a <> "" -> ends_with_sep a = false -> Ascii.eqb c "/" = false ->
  os_path_join a (String c b) = a ++ String "/" (String c b).
Proof.
  intros Ha Hsep Hc. unfold os_path_join. cbn [starts_with_sep]. rewrite Hc.
  destruct a as [|x a]; [contradiction|]. cbn [String.eqb]. rewrite Hsep. reflexivity.
Qed.

Lemma os_path_join_below a c b d e :
  Ascii.eqb d "/" = false -> ends_with_sep (String c b) = false ->
  os_path_join (a ++ String c b) (String d e)
  = a ++ String c b ++ String "/" (String d e).
Proof.
  intros Hd Hsep. rewrite os_path_join_plain.
  - apply append_assoc.
  - destruct a; discriminate.
  - rewrite ends_with_sep_app. exact Hsep.
  - exact Hd.
Qed.

(** X10: for an archive root that is not empty and does not end in a
    slash (as [os.path.abspath] returns it, the file system root apart),
    the profile is looked up at [<root>/account/user.json], the messages
    under [<root>/messages] with the pattern
    [<root>/messages/**/messages.json], and the images go to
    [<root>/out.png] and [<root>/out.svg]. *)
Theorem archive_paths dir :
  dir <> "" -> ends_with_sep dir = false ->
  user_json_path dir = dir ++ "/account/user.json"
  /\ messages_path dir = dir ++ "/messages"
  /\ messages_pattern dir = dir ++ "/messages/**/messages.json"
  /\ os_path_join dir "out.png" = dir ++ "/out.png"
  /\ os_path_join dir "out.svg" = dir ++ "/out.svg".
Proof.
  intros Hne Hsep.
  unfold user_json_path, messages_pattern, messages_path.
  rewrite !(os_path_join_plain dir) by (assumption || reflexivity).
  repeat split.
  - rewrite os_path_join_below by reflexivity. reflexivity.
  - rewrite os_path_join_below by reflexivity.
    change (String "/" "messages" ++ String "/" "**") with (String "/" "messages/**").
    rewrite os_path_join_below by reflexivity. reflexivity.
Qed.

Lemma archive_paths_witness :
  user_json_path "/export/package" = "/export/package" ++ "/account/user.json"
  /\ messages_path "/export/package" = "/export/package" ++ "/messages"
  /\ messages_pattern "/export/package"
     = "/export/package" ++ "/messages/**/messages.json"
  /\ os_path_join "/export/package" "out.png" = "/export/package" ++ "/out.png"
  /\ os_path_join "/export/package" "out.svg" = "/export/package" ++ "/out.svg".
Proof. apply archive_paths; [discriminate|reflexivity]. Defined.

(** ** Normalization at the edges *)

Lemma datetime_add_overflow d t :
  ~ in_calendar (wall_clock d + t) -> datetime_add d t = Raise OverflowError.
Proof.
  intros Hout. unfold datetime_add, in_calendar in *.
  destruct ((0 <? td_days (wall_clock d + t))
            && (td_days (wall_clock d + t) <=? MAXORDINAL)) eqn:E; [|reflexivity].
  apply andb_true_iff in E as [Hlo Hhi].
  apply Z.ltb_lt in Hlo. apply Z.leb_le in Hhi. exfalso. apply Hout. lia.
Qed.

Lemma datetime_add_in_calendar d t r :
  datetime_add d t = Ok r -> in_calendar (wall_clock d + t).
Proof.
  unfold datetime_add, in_calendar.
  destruct ((0 <? td_days (wall_clock d + t))
            && (td_days (wall_clock d + t) <=? MAXORDINAL)) eqn:E; [|discriminate].
  apply andb_true_iff in E as [Hlo Hhi].
  apply Z.ltb_lt in Hlo. apply Z.leb_le in Hhi. intros _. lia.
Qed.

Lemma datetime_add_raises d t e :
  datetime_add d t = Raise e -> e = OverflowError.
Proof.
  unfold datetime_add.
  destruct ((0 <? td_days (wall_clock d + t))
            && (td_days (wall_clock d + t) <=? MAXORDINAL)).
  - destruct (ord2ymd _) as [[? ?] ?]. discriminate.
  - intros [= <-]. reflexivity.
Qed.

(** X11: a timestamp parsed without zone information is read in the local
    zone of the machine running the script: its normalization has the
    wall clock of the parsed value, less the local offset, plus the user's
    offset; if the local offset cannot be determined, that failure ends the
    normalization. *)
Theorem naive_timestamp_uses_local_zone env (tz : timedelta) msg s parsed :
  getitem msg "Timestamp" = Ok (JString s) ->
  dateutil_parse env s = Ok parsed ->
  tzinfo parsed = None ->
  (forall (off : timedelta) r,
     local_utcoffset env parsed = Ok off ->
     normalize env tz msg = Ok r ->
     wall_clock r = wall_clock parsed - off + tz /\ tzinfo r = Some tz)
  /\ (forall e, local_utcoffset env parsed = Raise e ->
                normalize env tz msg = Raise e).
Proof.
  intros Hts Hparse Hnaive. unfold normalize. rewrite Hts. cbn [rbind parser_parse].
  rewrite Hparse. cbn [rbind]. unfold astimezone. rewrite Hnaive. split.
  - intros off r Hlo. rewrite Hlo. cbn [rbind].
    destruct (datetime_add parsed (- off)) as [utc|] eqn:Hutc; [|discriminate].
    cbn [rbind]. intros H. apply tz_fromutc_ok in H as (_ & W & T).
    apply datetime_add_ok in Hutc as (_ & Wu & _).
    rewrite wall_clock_replace_tzinfo in W. split; [lia|exact T].
  - intros e Hlo. rewrite Hlo. reflexivity.
Qed.

Lemma naive_timestamp_uses_local_zone_witness :
  let parsed := mk_datetime 2021 3 4 23 30 15 0 None in
  let r := mk_datetime 2021 3 4 22 30 15 0 (Some (td_minutes 60)) in
  normalize edge_archive (td_minutes 60) (sample_record "2021-03-04 23:30:15") = Ok r
  /\ wall_clock r = wall_clock parsed - td_minutes 120 + td_minutes 60
  /\ tzinfo r = Some (td_minutes 60).
Proof.
  cbv zeta.
  assert (Hrun : normalize edge_archive (td_minutes 60)
                   (sample_record "2021-03-04 23:30:15")
                 = Ok (mk_datetime 2021 3 4 22 30 15 0 (Some (td_minutes 60))))
    by (vm_compute; reflexivity).
  split; [exact Hrun|].
  exact (proj1 (naive_timestamp_uses_local_zone edge_archive (td_minutes 60)
                  (sample_record "2021-03-04 23:30:15") "2021-03-04 23:30:15"
                  (mk_datetime 2021 3 4 23 30 15 0 None) eq_refl eq_refl eq_refl)
           (td_minutes 120) _ eq_refl Hrun).
Defined.

(** X12: a timestamp with a zone offset whose instant, read in UTC or in
    the user's zone, falls before year 1 or after year 9999 is not
    clamped: its normalization ends in an [OverflowError]. *)
Theorem normalize_out_of_calendar env (tz : timedelta) msg s parsed (off : timedelta) :
  getitem msg "Timestamp" = Ok (JString s) ->
  dateutil_parse env s = Ok parsed ->
  tzinfo parsed = Some off ->
  - td 1 0 0 < off < td 1 0 0 ->
  - td 1 0 0 < tz < td 1 0 0 ->
  ~ in_calendar (wall_clock parsed - off)
  \/ ~ in_calendar (wall_clock parsed - off + tz) ->
  normalize env tz msg = Raise OverflowError.
Proof.
  intros Hts Hparse Hoff Ho Hz Hout.
  unfold normalize. rewrite Hts. cbn [rbind parser_parse].
  rewrite Hparse. cbn [rbind]. unfold astimezone. rewrite Hoff.
  rewrite (check_utc_offset_in_range off Ho). cbn [rbind].
  destruct (datetime_add parsed (- off)) as [utc|e] eqn:Hutc; cbn [rbind].
  - pose proof (datetime_add_in_calendar _ _ _ Hutc) as Hin.
    replace (wall_clock parsed + - off) with (wall_clock parsed - off) in Hin by lia.
    destruct Hout as [Hout|Hout]; [contradiction|].
    apply datetime_add_ok in Hutc as (_ & Wu & _).
    unfold tz_fromutc. rewrite (check_utc_offset_in_range tz Hz). cbn [rbind].
    cbv zeta. rewrite Z.sub_0_r.
    destruct (Z.eqb_spec tz 0) as [E|N].
    + exfalso. apply Hout. rewrite E, Z.add_0_r. exact Hin.
    + rewrite datetime_add_overflow; [reflexivity|].
      rewrite wall_clock_replace_tzinfo, Wu.
      replace (wall_clock parsed + - off + tz)
        with (wall_clock parsed - off + tz) by lia.
      exact Hout.
  - rewrite (datetime_add_raises _ _ _ Hutc). reflexivity.
Qed.

Lemma normalize_out_of_calendar_witness :
  normalize edge_archive (td_minutes 60) (sample_record "0001-01-01 00:30:00+01:00")
  = Raise OverflowError.
Proof.
  apply (normalize_out_of_calendar edge_archive (td_minutes 60)
           (sample_record "0001-01-01 00:30:00+01:00") "0001-01-01 00:30:00+01:00"
           (mk_datetime 1 1 1 0 30 0 0 (Some (td_minutes 60))) (td_minutes 60)
           eq_refl eq_refl eq_refl).
  - vm_compute. split; reflexivity.
  - vm_compute. split; reflexivity.
  - left. unfold in_calendar. vm_compute. intros [H _]. discriminate H.
Defined.

(** ** Instants and plotted points *)

Lemma ymd2ord_inj y1 m1 d1 y2 m2 d2 :
  valid_date y1 m1 d1 -> valid_date y2 m2 d2 ->
  ymd2ord y1 m1 d1 = ymd2ord y2 m2 d2 ->
  y1 = y2 /\ m1 = m2 /\ d1 = d2.
Proof.
  intros V1 V2 Heq.
  destruct (lex_compare [y1; m1; d1] [y2; m2; d2]) eqn:C.
  - apply lex_compare_eq in C. injection C as -> -> ->. auto.
  - pose proof (ymd2ord_lt _ _ _ _ _ _ V1 V2 C). lia.
  - assert (C' : lex_compare [y2; m2; d2] [y1; m1; d1] = Lt)
      by (rewrite lex_compare_antisym, C; reflexivity).
    pose proof (ymd2ord_lt _ _ _ _ _ _ V2 V1 C'). lia.
Qed.

(** Two valid datetimes with the same wall clock and the same zone are the
    same datetime. *)
Lemma wall_clock_inj a b :
  valid_datetime a = true -> valid_datetime b = true ->
  wall_clock a = wall_clock b -> tzinfo a = tzinfo b -> a = b.
Proof.
  intros Va Vb Hw Htz.
  apply valid_datetime_iff in Va as ((_ & Ma & Da) & (Ha & Mia & Sa & Ua)).
  apply valid_datetime_iff in Vb as ((_ & Mb & Db) & (Hb & Mib & Sb & Ub)).
  unfold wall_clock in Hw.
  pose proof (td_exact (toordinal a)
                (hour a * 3600 + minute a * 60 + second a) (microsecond a)
                ltac:(lia) ltac:(lia)) as (Ea1 & Ea2 & Ea3).
  pose proof (td_exact (toordinal b)
                (hour b * 3600 + minute b * 60 + second b) (microsecond b)
                ltac:(lia) ltac:(lia)) as (Eb1 & Eb2 & Eb3).
  rewrite Hw in Ea1, Ea2, Ea3.
  assert (Hord : toordinal a = toordinal b) by congruence.
  assert (Hsec : hour a * 3600 + minute a * 60 + second a
                 = hour b * 3600 + minute b * 60 + second b) by congruence.
  assert (Hus : microsecond a = microsecond b) by congruence.
  destruct (ymd2ord_inj _ _ _ _ _ _ (conj Ma Da) (conj Mb Db) Hord) as (Hy & Hm & Hd).
  assert (hour a = hour b /\ minute a = minute b /\ second a = second b)
    as (Hh & Hmi & Hs) by lia.
  destruct a, b. cbn in *. congruence.
Qed.

(** X13: two timestamps with zone offsets that denote the same instant,
    in whatever offsets they are written, normalize to the same datetime,
    and so to the same plotted point. *)
Theorem same_instant_same_point env (tz : timedelta) msg1 msg2 s1 s2 p1 p2 r1 r2 :
  getitem msg1 "Timestamp" = Ok (JString s1) ->
  getitem msg2 "Timestamp" = Ok (JString s2) ->
  dateutil_parse env s1 = Ok p1 ->
  dateutil_parse env s2 = Ok p2 ->
  instant p1 <> None ->
  instant p1 = instant p2 ->
  normalize env tz msg1 = Ok r1 ->
  normalize env tz msg2 = Ok r2 ->
  r1 = r2.
Proof.
  intros Hts1 Hts2 Hp1 Hp2 Haware Hsame Hn1 Hn2.
  unfold normalize in Hn1, Hn2. rewrite Hts1 in Hn1. rewrite Hts2 in Hn2.
  cbn [rbind parser_parse] in Hn1, Hn2. rewrite Hp1 in Hn1. rewrite Hp2 in Hn2.
  cbn [rbind] in Hn1, Hn2.
  unfold instant in Haware, Hsame.
  destruct (tzinfo p1) as [o1|] eqn:T1; [|contradiction].
  destruct (tzinfo p2) as [o2|] eqn:T2; [|discriminate].
  injection Hsame as Hsame.
  destruct (astimezone_ok _ p1 tz o1 r1 T1 Hn1) as (V1 & W1 & Z1).
  destruct (astimezone_ok _ p2 tz o2 r2 T2 Hn2) as (V2 & W2 & Z2).
  apply wall_clock_inj; try assumption; [lia|congruence].
Qed.

Lemma same_instant_same_point_witness :
  let r := mk_datetime 2021 3 5 0 30 15 0 (Some (td_minutes 60)) in
  normalize edge_archive (td_minutes 60) (sample_record "2021-03-05 00:30:15+01:00") = Ok r
  /\ normalize edge_archive (td_minutes 60) (sample_record "2021-03-04 18:30:15-05:00") = Ok r.
Proof.
  cbv zeta.
  assert (H1 : normalize edge_archive (td_minutes 60)
                 (sample_record "2021-03-05 00:30:15+01:00")
               = Ok (mk_datetime 2021 3 5 0 30 15 0 (Some (td_minutes 60))))
    by (vm_compute; reflexivity).
  assert (H2 : exists r2, normalize edge_archive (td_minutes 60)
                            (sample_record "2021-03-04 18:30:15-05:00") = Ok r2)
    by (eexists; vm_compute; reflexivity).
  destruct H2 as [r2 H2].
  pose proof (same_instant_same_point edge_archive (td_minutes 60)
              (sample_record "2021-03-05 00:30:15+01:00")
              (sample_record "2021-03-04 18:30:15-05:00")
              "2021-03-05 00:30:15+01:00" "2021-03-04 18:30:15-05:00"
              (mk_datetime 2021 3 5 0 30 15 0 (Some (td_minutes 60)))
              (mk_datetime 2021 3 4 18 30 15 0 (Some (td_minutes (-300))))
              _ r2 eq_refl eq_refl eq_refl eq_refl
              ltac:(discriminate) ltac:(vm_compute; reflexivity) H1 H2) as E.
  split; [exact H1|]. rewrite E. exact H2.
Defined.

(** X14: a timestamp already written in the user's offset comes out of the
    normalization unchanged. *)
Theorem normalize_in_user_zone_unchanged env (tz : timedelta) msg s parsed r :
  getitem msg "Timestamp" = Ok (JString s) ->
  dateutil_parse env s = Ok parsed ->
  valid_datetime parsed = true ->
  tzinfo parsed = Some tz ->
  normalize env tz msg = Ok r ->
  r = parsed.
Proof.
  intros Hts Hparse Hv Htz Hn.
  unfold normalize in Hn. rewrite Hts in Hn. cbn [rbind parser_parse] in Hn.
  rewrite Hparse in Hn. cbn [rbind] in Hn.
  destruct (astimezone_ok _ parsed tz tz r Htz Hn) as (Vr & Wr & Tr).
  apply wall_clock_inj; try assumption; [lia|congruence].
Qed.

Lemma normalize_in_user_zone_unchanged_witness :
  normalize edge_archive (td_minutes 60) (sample_record "2021-03-05 00:30:15+01:00")
  = Ok (mk_datetime 2021 3 5 0 30 15 0 (Some (td_minutes 60))).
Proof.
  assert (H : exists r, normalize edge_archive (td_minutes 60)
                          (sample_record "2021-03-05 00:30:15+01:00") = Ok r)
    by (eexists; vm_compute; reflexivity).
  destruct H as [r H]. rewrite H. f_equal.
  exact (normalize_in_user_zone_unchanged edge_archive (td_minutes 60)
           (sample_record "2021-03-05 00:30:15+01:00") "2021-03-05 00:30:15+01:00"
           (mk_datetime 2021 3 5 0 30 15 0 (Some (td_minutes 60))) r
           eq_refl eq_refl eq_refl eq_refl H).
Defined.

(** X15: the day span behind the figure width is never negative, and it
    is zero exactly when all Date Buckets are the same day; the width is
    then the float zero. *)
Theorem day_span_zero_iff_one_day dates :
  dates <> [] ->
  Forall is_date_bucket dates ->
  exists span,
    compute_figsize dates = Ok (Float.int_true_div span 200, 3)
    /\ 0 <= span
    /\ (span = 0 <-> forall d d', In d dates -> In d' dates -> d = d')
    /\ Float.int_true_div 0 200 = S754_zero false.
Proof.
  intros Hne Hall. destruct dates as [|x l]; [contradiction|].
  destruct (py_max_spec l x Hall) as (hi & Hmax & Hhi_in & Hhi).
  destruct (py_min_spec l x Hall) as (lo & Hmin & Hlo_in & Hlo).
  exists (toordinal hi - toordinal lo).
  split; [exact (compute_figsize_spec _ lo hi Hall Hmax Hmin Hhi_in Hlo_in)|].
  pose proof (Hhi lo Hlo_in) as Hle.
  split; [lia|]. split; [|reflexivity].
  rewrite Forall_forall in Hall.
  assert (Hinj : forall d d', In d (x :: l) -> In d' (x :: l) ->
                              toordinal d = toordinal d' -> d = d').
  { intros d d' Hd Hd' Ho.
    destruct (Hall d Hd) as [Vd Ed]. destruct (Hall d' Hd') as [Vd' Ed'].
    apply valid_datetime_iff in Vd as ((_ & Md & Dd) & _).
    apply valid_datetime_iff in Vd' as ((_ & Md' & Dd') & _).
    destruct (ymd2ord_inj _ _ _ _ _ _ (conj Md Dd) (conj Md' Dd') Ho) as (Hy & Hm & Hday).
    rewrite Ed, Ed'. unfold date_bucket. rewrite Hy, Hm, Hday. reflexivity. }
  split.
  - intros Hz d d' Hd Hd'. apply Hinj; try assumption.
    pose proof (Hhi d Hd). pose proof (Hlo d Hd).
    pose proof (Hhi d' Hd'). pose proof (Hlo d' Hd'). lia.
  - intros Hone. rewrite (Hone hi lo Hhi_in Hlo_in). lia.
Qed.

Lemma day_span_zero_iff_one_day_witness :
  let dates := [mk_datetime 2021 3 5 0 0 0 0 None; mk_datetime 2021 3 5 0 0 0 0 None] in
  exists span,
    compute_figsize dates = Ok (Float.int_true_div span 200, 3)
    /\ 0 <= span
    /\ (span = 0 <-> forall d d', In d dates -> In d' dates -> d = d')
    /\ Float.int_true_div 0 200 = S754_zero false.
Proof.
  apply day_span_zero_iff_one_day.
  - discriminate.
  - repeat constructor.
Defined.

(** ** Failing fast, and the zone in the title *)

(** X16: the loops stop at the first record that fails to normalize, in
    the order of the files and of the records: the run ends in that
    record's exception after the three lines printed so far, whatever the
    records and files that follow hold; nothing is written. *)
Theorem first_failure_decides env input user_name tz label
    pre mf post j rs1 msg rs2 acc1 acc2 e :
  archive_present env input = true ->
  profile_loaded env input user_name tz label ->
  message_files env input = (pre ++ mf :: post)%list ->
  parse_files env tz pre [] = Ok acc1 ->
  open_json env mf = Ok j ->
  py_iter j = Ok (rs1 ++ msg :: rs2)%list ->
  parse_records env tz rs1 acc1 = Ok acc2 ->
  normalize env tz msg = Raise e ->
  run (main env input)
  = ({| console := ["discord user: " ++ py_str env user_name;
                    "finding messages…"; "parsing messages…"];
        files := [] |},
     Uncaught e).
Proof.
  intros Hp Hprof Hfiles Hpre Hj Hit Hrs Hbad.
  apply (run_parse_failure env input user_name tz label e Hp Hprof).
  rewrite Hfiles, parse_files_app, Hpre. cbn [rbind parse_files].
  rewrite Hj. cbn [rbind]. rewrite Hit. cbn [rbind].
  rewrite parse_records_app, Hrs. cbn [rbind parse_records].
  rewrite Hbad. reflexivity.
Qed.

Lemma first_failure_decides_witness :
  run (main (archive true (Ok (sample_profile (JInt (-60))))
               [(sample_channel,
                 Ok (JArray [sample_record "2021-03-04 23:30:15.123456+00:00";
                             JObject [("Timestamp", JNull)];
                             sample_record "not a date"]))]) "package")
  = ({| console := ["discord user: sam"; "finding messages…"; "parsing messages…"];
        files := [] |},
     Uncaught TypeError).
Proof.
  refine (first_failure_decides
            (archive true (Ok (sample_profile (JInt (-60))))
               [(sample_channel,
                 Ok (JArray [sample_record "2021-03-04 23:30:15.123456+00:00";
                             JObject [("Timestamp", JNull)];
                             sample_record "not a date"]))])
            "package" (JString "sam") (td_minutes 60) "UTC+1"
            [] sample_channel [] _
            [sample_record "2021-03-04 23:30:15.123456+00:00"]
            (JObject [("Timestamp", JNull)]) [sample_record "not a date"]
            [] _ TypeError eq_refl _ eq_refl eq_refl eq_refl eq_refl _ eq_refl).
  - exists (sample_profile (JInt (-60))), (JInt (-60)).
    repeat split; vm_compute; reflexivity.
  - vm_compute. reflexivity.
Defined.

(** X17: for a stored offset of whole quarters of an hour within a day,
    the zone used to normalize the timestamps and the label shown in the
    title are those of the same offset, the negated stored value. *)
Theorem zone_and_label_agree (stored : Z) :
  -1440 < stored < 1440 -> stored mod 15 = 0 ->
  user_timezone_of (JInt stored) = Ok (td_minutes (- stored))
  /\ user_timezone_name_of (JInt stored) = Ok (exact_label (- stored)).
Proof.
  intros Hs H15. unfold user_timezone_of, user_timezone_name_of. cbn [py_neg rbind].
  split; [apply pytz_FixedOffset_in_range; lia|].
  destruct (utc_string_in_range (- stored) ltac:(lia)) as (label & Hl & _ & Hex).
  rewrite Hl. f_equal. apply Hex.
  rewrite Z.mod_opp_l_z by lia. reflexivity.
Qed.

Lemma zone_and_label_agree_witness :
  user_timezone_of (JInt (-330)) = Ok (td_minutes (- -330))
  /\ user_timezone_name_of (JInt (-330)) = Ok (exact_label (- -330))
  /\ exact_label (- -330) = "UTC+5:30".
Proof.
  destruct (zone_and_label_agree (-330) ltac:(lia) eq_refl) as [Hz Hl].
  split; [exact Hz|]. split; [exact Hl|reflexivity].
Defined.
